(** * BrandedToken.js: the contract-interact layer and the stake-request registry

    A shallow embedding of [lib/ContractInteract/BrandedToken.js] together
    with the part of JavaScript it relies on (values, truthiness, string
    interpolation, relational comparison, promises), and a model of the
    stake-request registry the client talks to. *)

From Stdlib Require Import ZArith Ascii String List Bool Lia.
From stdpp Require Import base option strings pretty list gmap.

Set Warnings "-register-all".

Local Open Scope string_scope.
Local Open Scope Z_scope.

(** ** JavaScript values *)

Module Js.

(** Numbers are the integer-valued ones (token amounts, decimals, signature
    components); [NaN] appears only as the [None] result of [ToNumber].
    An object carries the name of the constructor it was made with, which is
    what [instanceof] inspects, and its own properties in insertion order. *)
Inductive value : Type :=
  | VUndefined
  | VNull
  | VBool (b : bool)
  | VNum (n : Z)
  | VStr (s : string)
  | VArr (items : list value)
  | VObj (cls : string) (props : list (string * value)).

(** [!x] is [negb (truthy x)]: the falsy values are [undefined], [null],
    [false], [0] and the empty string; arrays and objects are always truthy. *)
Definition truthy (v : value) : bool :=
  match v with
  | VUndefined | VNull => false
  | VBool b => b
  | VNum n => negb (n =? 0)%Z
  | VStr s => negb (String.eqb s "")
  | VArr _ | VObj _ _ => true
  end.

Fixpoint assoc (k : string) (props : list (string * value)) : value :=
  match props with
  | [] => VUndefined
  | (k', v) :: rest => if String.eqb k k' then v else assoc k rest
  end.

(** Property read [o.k] on a value that is neither [undefined] nor [null];
    on these two JavaScript throws, which the callers below model where the
    read is not already guarded by a truthiness test. *)
Definition getProp (o : value) (k : string) : value :=
  match o with
  | VObj _ props => assoc k props
  | VArr items => if String.eqb k "length" then VNum (Z.of_nat (length items)) else VUndefined
  | VStr s => if String.eqb k "length" then VNum (Z.of_nat (String.length s)) else VUndefined
  | _ => VUndefined
  end.

(** [x instanceof C] for an object made by [new C(...)]. *)
Definition instanceof (v : value) (ctor : string) : bool :=
  match v with
  | VObj cls _ => String.eqb cls ctor
  | _ => false
  end.

(** Strict equality with a number literal, as in [addresses.length === 0]. *)
Definition strictEqNum (v : value) (n : Z) : bool :=
  match v with
  | VNum m => (m =? n)%Z
  | _ => false
  end.

Definition joinWith (sep : string) (parts : list string) : string :=
  match parts with
  | [] => ""
  | p :: ps => fold_left (fun acc q => acc +:+ sep +:+ q) ps p
  end.

(** [String(v)], the conversion a template literal applies to [${v}]. *)
Fixpoint ToString (v : value) : string :=
  match v with
  | VUndefined => "undefined"
  | VNull => "null"
  | VBool true => "true"
  | VBool false => "false"
  | VNum n => pretty n
  | VStr s => s
  | VArr items =>
      joinWith "," (map (fun x => match x with
                                  | VUndefined | VNull => ""
                                  | _ => ToString x
                                  end) items)
  | VObj _ _ => "[object Object]"
  end.

Definition isDigit (a : ascii) : bool :=
  let n := nat_of_ascii a in (48 <=? n)%nat && (n <=? 57)%nat.

Fixpoint digits (acc : Z) (s : string) : option Z :=
  match s with
  | EmptyString => Some acc
  | String a rest =>
      if isDigit a then digits (10 * acc + (Z.of_nat (nat_of_ascii a) - 48)) rest
      else None
  end.

(** Numeric value of a string: the empty string is [0], a decimal integer
    literal with an optional sign is that integer, anything else is [NaN].
    (White space, hexadecimal, fractional and exponent literals do not denote
    numbers of this model.) *)
Definition StringToNumber (s : string) : option Z :=
  match s with
  | EmptyString => Some 0
  | String "-" (String _ _ as rest) => Z.opp <$> digits 0 rest
  | String "+" (String _ _ as rest) => digits 0 rest
  | _ => digits 0 s
  end.

(** [Number(v)]; [None] is [NaN]. *)
Definition ToNumber (v : value) : option Z :=
  match v with
  | VUndefined => None
  | VNull => Some 0
  | VBool b => Some (if b then 1 else 0)
  | VNum n => Some n
  | VStr s => StringToNumber s
  | VArr _ => StringToNumber (ToString v)
  | VObj _ _ => None
  end.

Definition ToPrimitive (v : value) : value :=
  match v with
  | VArr _ | VObj _ _ => VStr (ToString v)
  | _ => v
  end.

(** [a < b]: two strings compare by code units, everything else
    numerically, and a comparison involving [NaN] is false. *)
Definition lt (a b : value) : bool :=
  match ToPrimitive a, ToPrimitive b with
  | VStr x, VStr y => String.ltb x y
  | x, y =>
      match ToNumber x, ToNumber y with
      | Some m, Some n => (m <? n)%Z
      | _, _ => false
      end
  end.

(** [a > b] is [b < a]. *)
Definition gt (a b : value) : bool := lt b a.

(** The [n]-th actual argument of a call; a parameter with no argument is
    [undefined], and arguments beyond the parameters are never read. *)
Definition arg (n : nat) (args : list value) : value := nth n args VUndefined.

End Js.

(** ** Errors, completions and promises *)

(** The failure kinds of the stake-request protocol, as its collaborators
    report them. *)
Inductive ErrorKind : Type :=
  | ValidationError
  | InvalidNonce
  | DuplicateRequest
  | RequestNotFound
  | UnauthorizedSigner
  | MalformedSignature
  | LedgerError
  | InsufficientAllowance.

(** What a [throw] or a rejected promise carries: a [TypeError] built by the
    client itself, or a failure reported by a collaborator. *)
Inductive JsError : Type :=
  | TypeError (message : string)
  | Failure (kind : ErrorKind).

Definition isTypeError (e : JsError) : bool :=
  match e with
  | TypeError _ => true
  | Failure _ => false
  end.

(** Result of a synchronous call. *)
Inductive Completion (A : Type) : Type :=
  | Return (a : A)
  | Throw (e : JsError).
Arguments Return {A} a.
Arguments Throw {A} e.

(** A raw transaction object: a method of a contract binding applied to its
    arguments, or a deployment of the binding with its bytecode. *)
Inductive RawTx : Type :=
  | MethodTx (contract : Js.value) (method : string) (args : list Js.value)
  | DeployTx (contract : Js.value) (data : Js.value) (args : list Js.value).

(** The two requests the client makes of the outside world: a read-only
    [contract.methods.m(args).call()] and [Utils.sendTransaction(tx, txOptions)]. *)
Inductive Event : Type :=
  | ContractCall (contract : Js.value) (method : string) (args : list Js.value)
  | SendTransaction (tx : RawTx) (txOptions : Js.value).

(** A promise as the client builds it: already resolved, already rejected,
    or awaiting the answer to an event before it continues.  An awaited
    promise that rejects rejects the whole computation (see [run]). *)
Inductive Async (A : Type) : Type :=
  | Resolve (a : A)
  | Reject (e : JsError)
  | Await (ev : Event) (k : Js.value -> Async A).
Arguments Resolve {A} a.
Arguments Reject {A} e.
Arguments Await {A} ev k.

Fixpoint bind {A B : Type} (p : Async A) (f : A -> Async B) : Async B :=
  match p with
  | Resolve a => f a
  | Reject e => Reject e
  | Await ev k => Await ev (fun v => bind (k v) f)
  end.

(** With these instances [x ← p; q] reads [const x = await p; q]. *)
#[global] Instance Async_ret : MRet Async := fun A a => Resolve a.
#[global] Instance Async_bind : MBind Async := fun A B f p => bind p f.

(** A [throw] inside an [async] function rejects its promise. *)
Definition ofCompletion {A : Type} (c : Completion A) : Async A :=
  match c with
  | Return a => Resolve a
  | Throw e => Reject e
  end.

(** A settled promise. *)
Inductive Outcome (A : Type) : Type :=
  | Fulfilled (a : A)
  | Rejected (e : JsError).
Arguments Fulfilled {A} a.
Arguments Rejected {A} e.

(** The outside world answers each event and moves to a new state. *)
Definition Handler (W : Type) : Type := Event -> W -> Outcome Js.value * W.

(** Runs a promise to completion against a world; the third component is
    the list of events that were issued, in order. *)
Fixpoint run {W A : Type} (h : Handler W) (p : Async A) (w : W)
  : Outcome A * W * list Event :=
  match p with
  | Resolve a => (Fulfilled a, w, [])
  | Reject e => (Rejected e, w, [])
  | Await ev k =>
      match h ev w with
      | (Fulfilled v, w') =>
          let '(o, w'', evs) := run h (k v) w' in (o, w'', ev :: evs)
      | (Rejected e, w') => (Rejected e, w', [ev])
      end
  end.

Definition outcome {W A : Type} (r : Outcome A * W * list Event) : Outcome A := r.1.1.
Definition world {W A : Type} (r : Outcome A * W * list Event) : W := r.1.2.
Definition events {W A : Type} (r : Outcome A * W * list Event) : list Event := r.2.

(** The transactions submitted during a run. *)
Fixpoint submitted (evs : list Event) : list (RawTx * Js.value) :=
  match evs with
  | [] => []
  | SendTransaction tx o :: rest => (tx, o) :: submitted rest
  | ContractCall _ _ _ :: rest => submitted rest
  end.

(** Whether a promise can issue a transaction at all, whatever the answers
    to the calls that precede it ([answers] supplies them). *)
Fixpoint firstSend {A : Type} (answers : Event -> Js.value) (p : Async A)
  : option (RawTx * Js.value) :=
  match p with
  | Resolve _ | Reject _ => None
  | Await (SendTransaction tx o) _ => Some (tx, o)
  | Await (ContractCall c m a as ev) k => firstSend answers (k (answers ev))
  end.

(** ** The modules the source imports *)

(** [Web3.utils.isAddress] of the web3 package, and the two modules of this
    repository whose files are not part of the development:
    [Contracts.getBrandedToken(web3, address)], which yields the contract
    binding, and [AbiBinProvider#getBIN(name)], which yields the bytecode. *)
Class Imports : Type := {
  isAddress : Js.value -> bool;
  getBrandedToken : Js.value -> Js.value -> Js.value;
  getBIN : string -> Js.value
}.


(** ** lib/ContractInteract/BrandedToken.js *)

Module BrandedToken.
Import Js.

Section Client.
Context {imp : Imports}.

Definition ContractName : string := "BrandedToken".

(** The fields the constructor sets on [this]. *)
Record t : Type := mk {
  web3 : value;
  address : value;
  contract : value
}.

(** [Utils.sendTransaction(tx, txOptions)]: the promise of the receipt. *)
Definition sendTransaction (tx : RawTx) (txOptions : value) : Async value :=
  Await (SendTransaction tx txOptions) Resolve.

(** [new BrandedToken(web3, address)]. *)
Definition constructor (web3 address : value) : Completion t :=
  if negb (instanceof web3 "Web3") then
    Throw (TypeError "Mandatory Parameter 'web3' is missing or invalid")
  else if negb (isAddress address) then
    Throw (TypeError ("Mandatory Parameter 'address' is missing or invalid: "
                      +:+ ToString address))
  else
    let contract := getBrandedToken web3 address in
    if negb (truthy contract) then
      Throw (TypeError ("Could not load branded token contract for: "
                        +:+ ToString address))
    else Return (mk web3 address contract).

(** [BrandedToken.deployRawTx(...)].  The last step calls [deploy] on the
    binding [Contracts.getBrandedToken(web3)] returns, which throws on
    [undefined] and [null]. *)
Definition deployRawTx
    (web3 valueToken symbol name decimals conversionRate
     conversionRateDecimals organization : value) : Completion RawTx :=
  if negb (instanceof web3 "Web3") then
    Throw (TypeError ("Mandatory Parameter 'web3' is missing or invalid: "
                      +:+ ToString web3))
  else if negb (isAddress valueToken) then
    Throw (TypeError ("Invalid valueToken address: " +:+ ToString valueToken +:+ "."))
  else if negb (isAddress organization) then
    Throw (TypeError ("Invalid organization address: " +:+ ToString organization +:+ "."))
  else if negb (gt conversionRate (VNum 0)) then
    Throw (TypeError ("Invalid conversion rate: " +:+ ToString conversionRate
                      +:+ ". It should be greater than zero"))
  else if negb (lt conversionRateDecimals (VNum 5)) then
    Throw (TypeError ("Invalid conversion rate decimal: "
                      +:+ ToString conversionRateDecimals
                      +:+ ". It should be less than 5"))
  else
    let bin := getBIN ContractName in
    let args := [valueToken; symbol; name; decimals; conversionRate;
                 conversionRateDecimals; organization] in
    let contract := getBrandedToken web3 VUndefined in
    match contract with
    | VUndefined | VNull =>
        Throw (TypeError ("Cannot read property 'deploy' of " +:+ ToString contract))
    | _ => Return (DeployTx contract bin args)
    end.

(** [BrandedToken.deploy(...)]: a throw of [deployRawTx], of the read of
    the receipt or of the constructor rejects the promise. *)
Definition deploy
    (web3 valueToken symbol name decimals conversionRate
     conversionRateDecimals organization txOptions : value) : Async t :=
  if negb (truthy txOptions) then
    Reject (TypeError "Invalid transaction options.")
  else if negb (isAddress (getProp txOptions "from")) then
    Reject (TypeError ("Invalid from address: "
                       +:+ ToString (getProp txOptions "from") +:+ "."))
  else
    tx ← ofCompletion (deployRawTx web3 valueToken symbol name decimals
                         conversionRate conversionRateDecimals organization);
    txReceipt ← sendTransaction tx txOptions;
    match txReceipt with
    | VUndefined | VNull =>
        Reject (TypeError ("Cannot read property 'contractAddress' of "
                           +:+ ToString txReceipt))
    | _ => ofCompletion (constructor web3 (getProp txReceipt "contractAddress"))
    end.

(** [convertToBrandedTokens(valueTokens)]. *)
Definition convertToBrandedTokens (this : t) (valueTokens : value) : Async value :=
  Await (ContractCall (contract this) "convertToBrandedTokens" [valueTokens]) Resolve.

(** [requestStakeRawTx(stakeAmount, mintAmount)]. *)
Definition requestStakeRawTx (this : t) (stakeAmount mintAmount : value) : Async RawTx :=
  Resolve (MethodTx (contract this) "requestStake" [stakeAmount; mintAmount]).

(** [requestStake(stakeAmount, txOptions)]. *)
Definition requestStake (this : t) (stakeAmount txOptions : value) : Async value :=
  if negb (truthy txOptions) then
    Reject (TypeError ("Invalid transaction options: " +:+ ToString txOptions +:+ "."))
  else if negb (isAddress (getProp txOptions "from")) then
    Reject (TypeError ("Invalid from address "
                       +:+ ToString (getProp txOptions "from")
                       +:+ " in transaction options."))
  else
    mintedAmount ← convertToBrandedTokens this stakeAmount;
    tx ← requestStakeRawTx this stakeAmount mintedAmount;
    sendTransaction tx txOptions.

(** [acceptStakeRequestRawTx(stakeRequestHash, r, s, v)]. *)
Definition acceptStakeRequestRawTx (this : t) (stakeRequestHash r s v : value)
  : Async RawTx :=
  if negb (truthy stakeRequestHash) then
    Reject (TypeError ("Invalid stakeRequestHash: " +:+ ToString stakeRequestHash +:+ "."))
  else if negb (truthy r) then
    Reject (TypeError ("Invalid r of signature: " +:+ ToString r +:+ "."))
  else if negb (truthy s) then
    Reject (TypeError ("Invalid s of signature: " +:+ ToString s +:+ "."))
  else if negb (truthy v) then
    Reject (TypeError ("Invalid v of signature: " +:+ ToString v +:+ "."))
  else
    Resolve (MethodTx (contract this) "acceptStakeRequest" [stakeRequestHash; r; s; v]).

(** [acceptStakeRequest(stakeRequestHash, r, s, v, txOptions)]. *)
Definition acceptStakeRequest (this : t) (stakeRequestHash r s v txOptions : value)
  : Async value :=
  if negb (truthy txOptions) then
    Reject (TypeError ("Invalid transaction options: " +:+ ToString txOptions +:+ "."))
  else if negb (isAddress (getProp txOptions "from")) then
    Reject (TypeError ("Invalid from address "
                       +:+ ToString (getProp txOptions "from")
                       +:+ " in transaction options."))
  else
    tx ← acceptStakeRequestRawTx this stakeRequestHash r s v;
    sendTransaction tx txOptions.

(** [liftRestrictionRawTx(addresses)]. *)
Definition liftRestrictionRawTx (this : t) (addresses : value) : Async RawTx :=
  if negb (truthy addresses) || strictEqNum (getProp addresses "length") 0 then
    Reject (TypeError ("At least one addresses must be defined : " +:+ ToString addresses))
  else
    Resolve (MethodTx (contract this) "liftRestriction" [addresses]).

(** [liftRestriction(addresses, txOptions)]. *)
Definition liftRestriction (this : t) (addresses txOptions : value) : Async value :=
  if negb (truthy txOptions) then
    Reject (TypeError ("Invalid transaction options: " +:+ ToString txOptions +:+ "."))
  else if negb (isAddress (getProp txOptions "from")) then
    Reject (TypeError ("Invalid from address "
                       +:+ ToString (getProp txOptions "from")
                       +:+ " in transaction options."))
  else
    tx ← liftRestrictionRawTx this addresses;
    sendTransaction tx txOptions.

(** [isUnrestricted(address)]. *)
Definition isUnrestricted (this : t) (address : value) : Async value :=
  Await (ContractCall (contract this) "isUnrestricted" [address]) Resolve.

(** [rejectStakeRequestRawTx(stakeRequestHash)]. *)
Definition rejectStakeRequestRawTx (this : t) (stakeRequestHash : value) : Async RawTx :=
  if negb (truthy stakeRequestHash) then
    Reject (TypeError ("Invalid stakeRequestHash: " +:+ ToString stakeRequestHash +:+ "."))
  else
    Resolve (MethodTx (contract this) "rejectStakeRequest" [stakeRequestHash]).

(** [rejectStakeRequest(stakeRequestHash, txOptions)]. *)
Definition rejectStakeRequest (this : t) (stakeRequestHash txOptions : value)
  : Async value :=
  if negb (truthy txOptions) then
    Reject (TypeError ("Invalid transaction options: " +:+ ToString txOptions +:+ "."))
  else if negb (isAddress (getProp txOptions "from")) then
    Reject (TypeError ("Invalid from address "
                       +:+ ToString (getProp txOptions "from")
                       +:+ " in transaction options."))
  else
    tx ← rejectStakeRequestRawTx this stakeRequestHash;
    sendTransaction tx txOptions.

(** A call [bt.acceptStakeRequest(...args)] with an argument list of any
    length: the five parameters take the first five arguments. *)
Definition acceptStakeRequest_apply (this : t) (args : list value) : Async value :=
  acceptStakeRequest this (arg 0 args) (arg 1 args) (arg 2 args) (arg 3 args) (arg 4 args).

(** The invariant the constructor establishes. *)
Definition wellFormed (this : t) : bool :=
  instanceof (web3 this) "Web3" && isAddress (address this) && truthy (contract this).

End Client.
End BrandedToken.

(** ** The stake-request registry *)

(** Result of a registry operation. *)
Inductive Result (A : Type) : Type :=
  | Ok (a : A)
  | Err (e : ErrorKind).
Arguments Ok {A} a.
Arguments Err {A} e.

Module Registry.

Definition Identity : Type := string.
Definition Digest : Type := string.

(** Modelled from the spec: the StakeRequest record of the data model
    (section 3); the contract that stores it is not among the sources. *)
Record StakeRequest : Type := mkRequest {
  staker : Identity;
  stakeAmount : Z;
  mintAmount : Z;
  gatewayTarget : Identity;
  gasPrice : Z;
  gasLimit : Z;
  beneficiary : Identity;
  nonce : Z
}.

(** Modelled from the spec: a worker's recoverable signature (4.3) and the
    HashLock pair (section 3). *)
Record Signature : Type := mkSignature { sig_r : string; sig_s : string; sig_v : Z }.

Record HashLock : Type := mkHashLock { secret : string; lock : string }.

(** Modelled from the spec: the registry entry (section 3), the two mappings
    [staker -> requestHash] and [requestHash -> StakeRequest], together with
    the NonceTracker's last consumed nonce per staker (section 4.2), which
    section 6 counts as part of the registry's durable state. *)
Record State : Type := mkState {
  stakerToHash : gmap string string;
  requests : gmap string StakeRequest;
  consumed : gmap string Z
}.

Definition empty : State := mkState ∅ ∅ ∅.

(** Modelled from the spec: [mintAmount = stakeAmount * conversionRate /
    10^conversionRateDecimals], truncated toward zero (section 3); the
    arithmetic is done by the contract behind [convertToBrandedTokens]. *)
Definition computeMintAmount (conversionRate conversionRateDecimals stakeAmount : Z) : Z :=
  Z.quot (stakeAmount * conversionRate) (10 ^ conversionRateDecimals).

Section Operations.

(** The configured conversion rate and the collaborators of section 6. *)
Variable conversionRate conversionRateDecimals : Z.
(** RequestHasher (4.1), the domain separator included. *)
Variable hash : StakeRequest -> Digest.
(** Identity recovery of the recoverable-signature scheme (4.3); [None] when
    recovery itself fails. *)
Variable recover : Digest -> Signature -> option Identity.
(** The authorized-signer directory: the currently active workers. *)
Variable currentWorkers : gset string.
(** Well-formedness of a lock (4.5, accept). *)
Variable lockWellFormed : string -> bool.
(** The ledger's mint / value-release effect and the return of the committed
    value; [false] is a ledger failure. *)
Variable releaseValue : StakeRequest -> bool.
Variable returnValue : StakeRequest -> bool.

(** Modelled from the spec: NonceTracker (4.2). *)
Definition next (st : State) (s : Identity) : Z :=
  default 0 (consumed st !! s) + 1.

Definition isValid (st : State) (s : Identity) (n : Z) : bool :=
  (n =? next st s)%Z.

(** Modelled from the spec: SignatureVerifier.verify (4.3). *)
Definition verify (d : Digest) (sg : Signature) (authorizedSigners : gset string)
  : Result Identity :=
  match recover d sg with
  | None => Err MalformedSignature
  | Some id => if decide (id ∈ authorizedSigners) then Ok id else Err UnauthorizedSigner
  end.

(** Modelled from the spec: the two lookups (4.5). *)
Definition lookupStaker (st : State) (s : Identity) : option Digest := stakerToHash st !! s.
Definition lookupHash (st : State) (h : Digest) : option StakeRequest := requests st !! h.

(** Modelled from the spec: [create(request)] (4.5), its requirements taken
    in the order the section lists them. *)
Definition create (st : State) (rq : StakeRequest) : Result (Digest * State) :=
  match lookupStaker st (staker rq) with
  | Some _ => Err DuplicateRequest
  | None =>
      if negb (isValid st (staker rq) (nonce rq)) then Err InvalidNonce
      else if negb (0 <? stakeAmount rq)%Z then Err ValidationError
      else if negb (mintAmount rq
                    =? computeMintAmount conversionRate conversionRateDecimals
                         (stakeAmount rq))%Z
      then Err ValidationError
      else
        let h := hash rq in
        Ok (h, mkState (<[staker rq := h]> (stakerToHash st))
                       (<[h := rq]> (requests st))
                       (<[staker rq := nonce rq]> (consumed st)))
  end.

(** Modelled from the spec: the clearing of a request, which removes both
    of its mappings (section 3, lifecycle). *)
Definition clear (st : State) (h : Digest) (rq : StakeRequest) : State :=
  mkState (delete (staker rq) (stakerToHash st)) (delete h (requests st)) (consumed st).

(** Modelled from the spec: the state [Open] with a matching request hash
    for the implicated staker, which accept and reject require (4.5). *)
Definition openRequest (st : State) (h : Digest) : option StakeRequest :=
  match lookupHash st h with
  | Some rq => if decide (lookupStaker st (staker rq) = Some h) then Some rq else None
  | None => None
  end.

(** Modelled from the spec: [accept(requestHash, signature, hashLock)] (4.5). *)
Definition accept (st : State) (h : Digest) (sg : Signature) (hl : HashLock)
  : Result State :=
  match openRequest st h with
  | None => Err RequestNotFound
  | Some rq =>
      match verify h sg currentWorkers with
      | Err e => Err e
      | Ok _ =>
          if negb (lockWellFormed (lock hl)) then Err ValidationError
          else if negb (releaseValue rq) then Err LedgerError
          else Ok (clear st h rq)
      end
  end.

(** Modelled from the spec: [reject(requestHash)] (4.5), called by [caller]. *)
Definition reject (st : State) (h : Digest) (caller : Identity) : Result State :=
  match openRequest st h with
  | None => Err RequestNotFound
  | Some rq =>
      if decide (caller ∈ currentWorkers) then
        if negb (returnValue rq) then Err LedgerError else Ok (clear st h rq)
      else Err UnauthorizedSigner
  end.

End Operations.
End Registry.

(** ** The ledger behind the client *)

Module Ledger.
Import Js.

(** Modelled from the spec: the world the orchestrator's steps act on
    (section 4.6 and the data flow of section 2), since the contract and the
    value token are not among the sources: the spending authorization of
    source value each holder has granted to the registry's holding account,
    and the registry. *)
Record World : Type := mkWorld {
  allowance : gmap string Z;
  registry : Registry.State
}.

Definition allowanceOf (w : World) (holder : string) : Z :=
  default 0 (allowance w !! holder).

(** The sender of a transaction. *)
Definition fromOf (txOptions : value) : string :=
  match getProp txOptions "from" with
  | VStr s => s
  | _ => ""
  end.

Section Handler.
Variable conversionRate conversionRateDecimals : Z.
Variable hash : Registry.StakeRequest -> Registry.Digest.

(** Modelled from the spec: a [requestStake(stake, mint)] transaction is the
    registry's [create] for the sender with the next nonce, followed by the
    ledger's transfer of the stake to the holding account, which needs the
    allowance; a failed transfer is a [LedgerError] and aborts the enclosing
    transition (section 6). *)
Definition executeRequestStake (w : World) (sender : string) (stake mint : Z)
  : Outcome value * World :=
  let rq := Registry.mkRequest sender stake mint "" 0 0 ""
              (Registry.next (registry w) sender) in
  match Registry.create conversionRate conversionRateDecimals hash (registry w) rq with
  | Err e => (Rejected (Failure e), w)
  | Ok (h, st') =>
      if (allowanceOf w sender <? stake)%Z then (Rejected (Failure LedgerError), w)
      else (Fulfilled (VObj "Object" [("status", VBool true); ("requestHash", VStr h)]),
            mkWorld (<[sender := allowanceOf w sender - stake]> (allowance w)) st')
  end.

(** Modelled from the spec: the answers of the chain to the events of the
    staking steps: the conversion call (steps 2) and the submission of a
    stake request (step 3).  Other events are refused. *)
Definition handler : Handler World := fun ev w =>
  match ev with
  | ContractCall _ m [v] =>
      if String.eqb m "convertToBrandedTokens" then
        match ToNumber v with
        | Some n =>
            (Fulfilled (VNum (Registry.computeMintAmount conversionRate
                                conversionRateDecimals n)), w)
        | None => (Rejected (Failure ValidationError), w)
        end
      else (Rejected (Failure ValidationError), w)
  | SendTransaction (MethodTx _ m [stake; mint]) txOptions =>
      if String.eqb m "requestStake" then
        match ToNumber stake, ToNumber mint with
        | Some s, Some n => executeRequestStake w (fromOf txOptions) s n
        | _, _ => (Rejected (Failure ValidationError), w)
        end
      else (Rejected (Failure ValidationError), w)
  | _ => (Rejected (Failure ValidationError), w)
  end.

End Handler.
End Ledger.

(** ** A concrete environment *)

Module Sample.
Import Js.

Definition isLowerHex (a : ascii) : bool :=
  let n := nat_of_ascii a in
  ((48 <=? n)%nat && (n <=? 57)%nat) || ((97 <=? n)%nat && (n <=? 102)%nat).

Fixpoint allLowerHex (s : string) : bool :=
  match s with
  | EmptyString => true
  | String a rest => isLowerHex a && allLowerHex rest
  end.

(** [Web3.utils.isAddress] on the all-lower-case spelling of an address:
    [0x] followed by forty hexadecimal digits (no checksum is involved for
    such a string). *)
Definition isLowerCaseAddress (v : value) : bool :=
  match v with
  | VStr (String "0" (String "x" body)) =>
      (String.length body =? 40)%nat && allLowerHex body
  | _ => false
  end.

Definition imports : Imports := {|
  isAddress := isLowerCaseAddress;
  getBrandedToken := fun web3 address => VObj "Contract" [("address", address)];
  getBIN := fun name => VStr ("0x60806040:" +:+ name)
|}.

(** An import set whose [Contracts.getBrandedToken] finds no contract. *)
Definition importsWithoutContract : Imports := {|
  isAddress := isLowerCaseAddress;
  getBrandedToken := fun _ _ => VUndefined;
  getBIN := fun name => VStr ("0x60806040:" +:+ name)
|}.

Definition web3 : value := VObj "Web3" [("currentProvider", VStr "http://127.0.0.1:8545")].
Definition owner : string := "0x00000000000000000000000000000000000000a1".
Definition valueToken : string := "0x00000000000000000000000000000000000000b2".
Definition organization : string := "0x00000000000000000000000000000000000000c3".
Definition brandedToken : string := "0x00000000000000000000000000000000000000d4".
Definition worker : string := "0x00000000000000000000000000000000000000e5".

(** The transaction options of the test suite. *)
Definition txOptions : value :=
  VObj "Object" [("from", VStr owner); ("gas", VStr "8000000")].

Definition bt : BrandedToken.t :=
  BrandedToken.mk web3 (VStr brandedToken)
    (VObj "Contract" [("address", VStr brandedToken)]).

(** A request hasher for running examples: the fields written out. *)
Definition hash (rq : Registry.StakeRequest) : Registry.Digest :=
  Registry.staker rq +:+ ":" +:+ pretty (Registry.stakeAmount rq) +:+ ":"
  +:+ pretty (Registry.mintAmount rq) +:+ ":" +:+ pretty (Registry.nonce rq).

(** Conversion rate 1000 at 5 decimal places, as in the test suite. *)
Definition handler : Handler Ledger.World := Ledger.handler 1000 5 hash.

(** A world in which the owner has granted no allowance at all. *)
Definition noAllowance : Ledger.World := Ledger.mkWorld ∅ Registry.empty.

(** A world in which the owner has approved 1000, as the test suite does. *)
Definition approved : Ledger.World := Ledger.mkWorld {[ owner := 1000 ]} Registry.empty.

End Sample.

(** ** Predicates used in the statements *)

(** The two checks every submitting method makes on [txOptions] first. *)
Definition validTxOptions {imp : Imports} (txOptions : Js.value) : bool :=
  Js.truthy txOptions && isAddress (Js.getProp txOptions "from").

Module Args.
Import Js.

(** No argument was passed, or [null] was. *)
Definition missing (x : value) : bool :=
  match x with
  | VUndefined | VNull => true
  | _ => false
  end.

(** Missing, the empty string, or the number zero. *)
Definition missingEmptyOrZero (x : value) : bool :=
  match x with
  | VUndefined | VNull => true
  | VStr s => String.eqb s ""
  | VNum n => (n =? 0)%Z
  | _ => false
  end.

(** The kinds of value the signature parameters are documented to take
    (strings; numbers for a recovery id given as such), or nothing. *)
Definition stringNumberOrMissing (x : value) : bool :=
  match x with
  | VUndefined | VNull | VStr _ | VNum _ => true
  | _ => false
  end.

(** The kind of value [addresses] is documented to take, or nothing. *)
Definition listOrMissing (x : value) : bool :=
  match x with
  | VUndefined | VNull | VArr _ => true
  | _ => false
  end.

End Args.

Module Lock.
Import Js.

Definition isHex (a : ascii) : bool :=
  let n := nat_of_ascii a in
  ((48 <=? n)%nat && (n <=? 57)%nat) || ((97 <=? n)%nat && (n <=? 102)%nat)
  || ((65 <=? n)%nat && (n <=? 70)%nat).

Fixpoint allHex (s : string) : bool :=
  match s with
  | EmptyString => true
  | String a rest => isHex a && allHex rest
  end.

(** Modelled from the spec: a well-formed lock is the output of the one-way
    hash of section 4.4, a 32-byte value, written [0x] and 64 hexadecimal
    digits. *)
Definition wellFormed (v : value) : bool :=
  match v with
  | VStr (String "0" (String "x" body)) => (String.length body =? 64)%nat && allHex body
  | _ => false
  end.

(** The reading of the claim on the client: an acceptance called with a
    hash lock after its five parameters is not submitted unless the lock is
    well-formed, whatever the calls that precede the submission answer. *)
Definition acceptRequiresWellFormedLock (imp : Imports) : Prop :=
  forall (this : BrandedToken.t) (stakeRequestHash r s v txOptions hashLock : value)
         (answers : Event -> value),
    wellFormed hashLock = false ->
    firstSend answers
      (BrandedToken.acceptStakeRequest_apply this
         [stakeRequestHash; r; s; v; txOptions; hashLock]) = None.

End Lock.

Module Allowance.
Import Js.

(** The reading of the claim on the client: whenever the sender's allowance
    for the holding account is below the stake, [requestStake] (called with
    valid transaction options) is rejected with [InsufficientAllowance],
    submits nothing and leaves the world as it was. *)
Definition requestStakeVerifiesAllowance
    (imp : Imports) (h : Handler Ledger.World) : Prop :=
  forall (this : BrandedToken.t) (stakeAmount txOptions : value) (n : Z) (w : Ledger.World),
    validTxOptions txOptions = true ->
    ToNumber stakeAmount = Some n ->
    (Ledger.allowanceOf w (Ledger.fromOf txOptions) < n)%Z ->
    let r := run h (BrandedToken.requestStake this stakeAmount txOptions) w in
    outcome r = Rejected (Failure InsufficientAllowance)
    /\ submitted (events r) = []
    /\ world r = w.

End Allowance.

(** ** The scenario of the test suite *)

Module Scenario.

(** A signature scheme for running examples: the signature of digest [d] by
    signer [a] is [(a, d, 27)]. *)
Definition recover (d : Registry.Digest) (sg : Registry.Signature)
  : option Registry.Identity :=
  if String.eqb (Registry.sig_s sg) d && (Registry.sig_v sg =? 27)%Z
  then Some (Registry.sig_r sg) else None.

Definition workers : gset string := {[ Sample.worker ]}.

Definition lockWellFormed (l : string) : bool := Lock.wellFormed (Js.VStr l).

Definition hashLock : Registry.HashLock :=
  Registry.mkHashLock "s3cr3t"
    "0x00112233445566778899aabbccddeeff00112233445566778899aabbccddeeff".

(** The staker commits 200 at rate 1000 with 5 decimals, nonce 1. *)
Definition request : Registry.StakeRequest :=
  Registry.mkRequest Sample.owner 200 2 "" 0 0 "" 1.

Definition requestHash : Registry.Digest := Sample.hash request.

Definition create := Registry.create 1000 5 Sample.hash.
Definition accept :=
  Registry.accept recover workers lockWellFormed (fun _ => true).

(** The registry after the first create. *)
Definition opened : Registry.State :=
  match create Registry.empty request with
  | Ok (_, st) => st
  | Err _ => Registry.empty
  end.

(** The registry after the worker's signature has been accepted. *)
Definition accepted : Registry.State := Registry.clear opened requestHash request.

Definition workerSignature : Registry.Signature :=
  Registry.mkSignature Sample.worker requestHash 27.

End Scenario.

(** A value that spells the integer [n]: the number itself or its decimal
    string, the two ways the callers pass amounts and rates. *)
Definition spells (v : Js.value) (n : Z) : Prop :=
  v = Js.VNum n \/ v = Js.VStr (pretty n).

(** ** Observations on events *)

(** The contract binding an event is addressed to. *)
Definition eventContract (ev : Event) : Js.value :=
  match ev with
  | ContractCall c _ _ => c
  | SendTransaction (MethodTx c _ _) _ => c
  | SendTransaction (DeployTx c _ _) _ => c
  end.

(** The answer of a world to one event, as a run reports it. *)
Definition answer {W : Type} (h : Handler W) (ev : Event) (w : W)
  : Outcome Js.value * W * list Event :=
  ((h ev w).1, (h ev w).2, [ev]).

(** A promise that never submits a transaction, whatever it is answered. *)
Inductive NoSend {A : Type} : Async A -> Prop :=
  | NoSend_Resolve (a : A) : NoSend (Resolve a)
  | NoSend_Reject (e : JsError) : NoSend (Reject e)
  | NoSend_Call c m args (k : Js.value -> Async A) :
      (forall v, NoSend (k v)) -> NoSend (Await (ContractCall c m args) k).

(** A promise that submits at most one transaction, whatever it is answered. *)
Inductive AtMostOneSend {A : Type} : Async A -> Prop :=
  | AtMostOneSend_Resolve (a : A) : AtMostOneSend (Resolve a)
  | AtMostOneSend_Reject (e : JsError) : AtMostOneSend (Reject e)
  | AtMostOneSend_Call c m args (k : Js.value -> Async A) :
      (forall v, AtMostOneSend (k v)) -> AtMostOneSend (Await (ContractCall c m args) k)
  | AtMostOneSend_Send tx o (k : Js.value -> Async A) :
      (forall v, NoSend (k v)) -> AtMostOneSend (Await (SendTransaction tx o) k).

(** A promise all of whose events are addressed to the binding [c]. *)
Inductive Targets {A : Type} (c : Js.value) : Async A -> Prop :=
  | Targets_Resolve (a : A) : Targets c (Resolve a)
  | Targets_Reject (e : JsError) : Targets c (Reject e)
  | Targets_Await ev (k : Js.value -> Async A) :
      eventContract ev = c -> (forall v, Targets c (k v)) -> Targets c (Await ev k).

(** A promise whose own rejections are all [TypeError]s. *)
Inductive TypedRejects {A : Type} : Async A -> Prop :=
  | TypedRejects_Resolve (a : A) : TypedRejects (Resolve a)
  | TypedRejects_Reject (msg : string) : TypedRejects (Reject (TypeError msg))
  | TypedRejects_Await ev (k : Js.value -> Async A) :
      (forall v, TypedRejects (k v)) -> TypedRejects (Await ev k).

(** * Properties *)

Example ToString_examples :
  Js.ToString (Js.VNum 5) = "5" /\
  Js.ToString (Js.VArr [Js.VNum 1; Js.VNull; Js.VStr "a"]) = "1,,a" /\
  Js.ToNumber (Js.VStr "1000") = Some 1000 /\
  Js.gt (Js.VStr "1000") (Js.VNum 0) = true /\
  Js.lt (Js.VNum 5) (Js.VNum 5) = false /\
  Js.lt Js.VUndefined (Js.VNum 5) = false.
Proof. vm_compute. repeat split. Qed.

Example sample_runs :
  events (run Sample.handler
            (BrandedToken.requestStake (imp := Sample.imports)
               Sample.bt (Js.VNum 200) Sample.txOptions)
            Sample.approved)
  = [ContractCall (BrandedToken.contract Sample.bt) "convertToBrandedTokens" [Js.VNum 200];
     SendTransaction
       (MethodTx (BrandedToken.contract Sample.bt) "requestStake" [Js.VNum 200; Js.VNum 2])
       Sample.txOptions].
Proof. vm_compute. reflexivity. Qed.

(** ** Running promises *)

Lemma run_Resolve {W A : Type} (h : Handler W) (a : A) (w : W) :
  run h (Resolve a) w = (Fulfilled a, w, []).
Proof. reflexivity. Qed.

Lemma run_Reject {W A : Type} (h : Handler W) (e : JsError) (w : W) :
  run (A := A) h (Reject e) w = (Rejected e, w, []).
Proof. reflexivity. Qed.

Lemma run_Await_rejected {W A : Type} (h : Handler W) ev (k : Js.value -> Async A) w e w' :
  h ev w = (Rejected e, w') ->
  run h (Await ev k) w = (Rejected e, w', [ev]).
Proof. intros Hev. simpl. rewrite Hev. reflexivity. Qed.

Lemma run_Await_fulfilled {W A : Type} (h : Handler W) ev (k : Js.value -> Async A) w v w' :
  h ev w = (Fulfilled v, w') ->
  run h (Await ev k) w =
    (outcome (run h (k v) w'), world (run h (k v) w'), ev :: events (run h (k v) w')).
Proof.
  intros Hev. simpl. rewrite Hev.
  destruct (run h (k v) w') as [[o w''] evs]. reflexivity.
Qed.

(** ** Transaction options *)

Lemma validTxOptions_true (imp : Imports) txOptions :
  validTxOptions txOptions = true <->
  Js.truthy txOptions = true /\ isAddress (Js.getProp txOptions "from") = true.
Proof. unfold validTxOptions. apply andb_true_iff. Qed.

Lemma validTxOptions_false (imp : Imports) txOptions :
  validTxOptions txOptions = false <->
  Js.truthy txOptions = false \/ isAddress (Js.getProp txOptions "from") = false.
Proof. unfold validTxOptions. apply andb_false_iff. Qed.

(** Case analysis on the two guards on [txOptions]. *)
Ltac guards :=
  repeat match goal with
         | H : Js.truthy ?o = _ |- context [Js.truthy ?o] => rewrite H
         | H : isAddress ?a = _ |- context [isAddress ?a] => rewrite H
         | H : Js.instanceof ?o ?c = _ |- context [Js.instanceof ?o ?c] => rewrite H
         end; cbn [negb orb andb].

(** C4: with valid transaction options [requestStake] first calls
    [convertToBrandedTokens] on the stake amount and then submits the
    [requestStake] transaction whose arguments are the stake amount and the
    answer of that call, in this order; run against any world, the events
    are the call followed by that one submission. *)
Theorem requestStake_converts_then_submits
    (imp : Imports) (this : BrandedToken.t) (stakeAmount txOptions : Js.value) :
  Js.truthy txOptions = true ->
  isAddress (Js.getProp txOptions "from") = true ->
  BrandedToken.requestStake this stakeAmount txOptions =
    Await (ContractCall (BrandedToken.contract this) "convertToBrandedTokens" [stakeAmount])
      (fun mintedAmount =>
         Await (SendTransaction
                  (MethodTx (BrandedToken.contract this) "requestStake"
                     [stakeAmount; mintedAmount])
                  txOptions)
           Resolve)
  /\ forall (W : Type) (h : Handler W) (w w' : W) (mintedAmount : Js.value),
       h (ContractCall (BrandedToken.contract this) "convertToBrandedTokens" [stakeAmount]) w
         = (Fulfilled mintedAmount, w') ->
       submitted (events (run h (BrandedToken.requestStake this stakeAmount txOptions) w))
         = [(MethodTx (BrandedToken.contract this) "requestStake"
               [stakeAmount; mintedAmount], txOptions)].
Proof.
  intros Ht Ha.
  assert (Heq : BrandedToken.requestStake this stakeAmount txOptions =
    Await (ContractCall (BrandedToken.contract this) "convertToBrandedTokens" [stakeAmount])
      (fun mintedAmount =>
         Await (SendTransaction
                  (MethodTx (BrandedToken.contract this) "requestStake"
                     [stakeAmount; mintedAmount])
                  txOptions)
           Resolve)).
  { unfold BrandedToken.requestStake. guards. reflexivity. }
  split; [exact Heq |].
  intros W h w w' m Hcall. rewrite Heq.
  rewrite (run_Await_fulfilled _ _ _ _ _ _ Hcall). unfold events at 1. cbn [snd submitted].
  cbn [run].
  destruct (h _ w') as [[v | e] w'']; [| reflexivity].
  reflexivity.
Qed.

Lemma requestStake_converts_then_submits_witness :
  Js.truthy Sample.txOptions = true /\
  BrandedToken.requestStake (imp := Sample.imports) Sample.bt (Js.VNum 200) Sample.txOptions =
    Await (ContractCall (BrandedToken.contract Sample.bt) "convertToBrandedTokens" [Js.VNum 200])
      (fun mintedAmount =>
         Await (SendTransaction
                  (MethodTx (BrandedToken.contract Sample.bt) "requestStake"
                     [Js.VNum 200; mintedAmount])
                  Sample.txOptions)
           Resolve).
Proof.
  split; [reflexivity |].
  apply (requestStake_converts_then_submits Sample.imports Sample.bt (Js.VNum 200)
           Sample.txOptions); reflexivity.
Defined.

(** C5: when [txOptions] is missing (falsy) or its [from] is not a valid
    address, each of [requestStake], [acceptStakeRequest] and
    [rejectStakeRequest] is a promise rejected with a [TypeError]; run
    against any world it issues no event at all (no call, no transaction)
    and leaves the world as it was. *)
Theorem invalid_txOptions_rejected_before_submission
    (imp : Imports) (this : BrandedToken.t) (txOptions : Js.value) :
  Js.truthy txOptions = false \/ isAddress (Js.getProp txOptions "from") = false ->
  forall (W : Type) (h : Handler W) (w : W),
    (forall stakeAmount, exists msg,
        run h (BrandedToken.requestStake this stakeAmount txOptions) w
        = (Rejected (TypeError msg), w, []))
    /\ (forall stakeRequestHash r s v, exists msg,
        run h (BrandedToken.acceptStakeRequest this stakeRequestHash r s v txOptions) w
        = (Rejected (TypeError msg), w, []))
    /\ (forall stakeRequestHash, exists msg,
        run h (BrandedToken.rejectStakeRequest this stakeRequestHash txOptions) w
        = (Rejected (TypeError msg), w, [])).
Proof.
  intros Hbad W h w.
  unfold BrandedToken.requestStake, BrandedToken.acceptStakeRequest,
    BrandedToken.rejectStakeRequest.
  destruct (Js.truthy txOptions) eqn:Ht; cbn [negb].
  - destruct Hbad as [Hbad | Hbad]; [discriminate |].
    rewrite Hbad. cbn [negb].
    repeat split; intros; eexists; apply run_Reject.
  - repeat split; intros; eexists; apply run_Reject.
Qed.

Lemma invalid_txOptions_rejected_before_submission_witness :
  exists msg,
    run Sample.handler
      (BrandedToken.requestStake (imp := Sample.imports) Sample.bt (Js.VNum 200)
         (Js.VObj "Object" [("from", Js.VStr "0x12"); ("gas", Js.VStr "8000000")]))
      Sample.approved
    = (Rejected (TypeError msg), Sample.approved, []).
Proof.
  apply (invalid_txOptions_rejected_before_submission Sample.imports Sample.bt
           (Js.VObj "Object" [("from", Js.VStr "0x12"); ("gas", Js.VStr "8000000")])).
  right. reflexivity.
Defined.

(** ** Argument checks of the raw-transaction builders *)

Lemma truthy_missingEmptyOrZero x :
  Args.stringNumberOrMissing x = true -> Js.truthy x = negb (Args.missingEmptyOrZero x).
Proof. destruct x; simpl; intros; try discriminate; reflexivity. Qed.

(** C6: for arguments of the documented kinds, [acceptStakeRequestRawTx] is
    a promise rejected with a [TypeError] exactly when one of
    [stakeRequestHash], [r], [s], [v] is missing, empty or zero, and
    otherwise it resolves to the [acceptStakeRequest] transaction over
    these four arguments, in this order. *)
Theorem acceptStakeRequestRawTx_rejects_iff
    (this : BrandedToken.t) (stakeRequestHash r s v : Js.value) :
  forallb Args.stringNumberOrMissing [stakeRequestHash; r; s; v] = true ->
  ((exists msg, BrandedToken.acceptStakeRequestRawTx this stakeRequestHash r s v
                = Reject (TypeError msg))
   <-> existsb Args.missingEmptyOrZero [stakeRequestHash; r; s; v] = true)
  /\ (existsb Args.missingEmptyOrZero [stakeRequestHash; r; s; v] = false ->
      BrandedToken.acceptStakeRequestRawTx this stakeRequestHash r s v
      = Resolve (MethodTx (BrandedToken.contract this) "acceptStakeRequest"
                   [stakeRequestHash; r; s; v])).
Proof.
  cbn [forallb existsb]. rewrite !andb_true_iff.
  intros (Hh & Hr & Hs & Hv & _).
  unfold BrandedToken.acceptStakeRequestRawTx.
  rewrite (truthy_missingEmptyOrZero _ Hh), (truthy_missingEmptyOrZero _ Hr),
    (truthy_missingEmptyOrZero _ Hs), (truthy_missingEmptyOrZero _ Hv).
  rewrite !negb_involutive.
  destruct (Args.missingEmptyOrZero stakeRequestHash);
    [split; [split; [reflexivity | eauto] | discriminate] |].
  destruct (Args.missingEmptyOrZero r);
    [split; [split; [reflexivity | eauto] | discriminate] |].
  destruct (Args.missingEmptyOrZero s);
    [split; [split; [reflexivity | eauto] | discriminate] |].
  destruct (Args.missingEmptyOrZero v);
    [split; [split; [reflexivity | eauto] | discriminate] |].
  cbn [orb]. split; [| reflexivity].
  split; [intros [msg Hmsg]; discriminate | discriminate].
Qed.

Lemma acceptStakeRequestRawTx_rejects_iff_witness :
  BrandedToken.acceptStakeRequestRawTx Sample.bt
    (Js.VStr "0xabc1") (Js.VStr "0x01") (Js.VStr "0x02") (Js.VNum 27)
  = Resolve (MethodTx (BrandedToken.contract Sample.bt) "acceptStakeRequest"
               [Js.VStr "0xabc1"; Js.VStr "0x01"; Js.VStr "0x02"; Js.VNum 27])
  /\ exists msg,
       BrandedToken.acceptStakeRequestRawTx Sample.bt
         (Js.VStr "0xabc1") (Js.VStr "0x01") (Js.VStr "") (Js.VNum 27)
       = Reject (TypeError msg).
Proof.
  split.
  - apply (acceptStakeRequestRawTx_rejects_iff Sample.bt
             (Js.VStr "0xabc1") (Js.VStr "0x01") (Js.VStr "0x02") (Js.VNum 27));
      reflexivity.
  - apply (acceptStakeRequestRawTx_rejects_iff Sample.bt
             (Js.VStr "0xabc1") (Js.VStr "0x01") (Js.VStr "") (Js.VNum 27));
      reflexivity.
Defined.

(** C9: for an [addresses] argument that is a list or is missing,
    [liftRestrictionRawTx] is a promise rejected with a [TypeError] exactly
    when the argument is missing or the empty list, and otherwise resolves
    to the [liftRestriction] transaction over that list; and for the empty
    list [liftRestriction] is a rejected promise that issues no event,
    whatever the transaction options. *)
Theorem liftRestrictionRawTx_rejects_iff
    (imp : Imports) (this : BrandedToken.t) (addresses : Js.value) :
  Args.listOrMissing addresses = true ->
  ((exists msg, BrandedToken.liftRestrictionRawTx this addresses = Reject (TypeError msg))
   <-> (Args.missing addresses = true \/ addresses = Js.VArr []))
  /\ (Args.missing addresses = false -> addresses <> Js.VArr [] ->
      BrandedToken.liftRestrictionRawTx this addresses
      = Resolve (MethodTx (BrandedToken.contract this) "liftRestriction" [addresses]))
  /\ (forall (txOptions : Js.value) (W : Type) (h : Handler W) (w : W),
      exists msg,
        run h (BrandedToken.liftRestriction this (Js.VArr []) txOptions) w
        = (Rejected (TypeError msg), w, [])).
Proof.
  intros Hkind. unfold BrandedToken.liftRestrictionRawTx.
  split; [| split].
  - destruct addresses as [ | | | | | items | ]; try discriminate; simpl.
    + split; eauto.
    + split; eauto.
    + destruct items; simpl.
      * split; eauto.
      * split; [intros [msg Hmsg]; discriminate |].
        intros [Hm | Hm]; discriminate.
  - intros Hm Hne.
    destruct addresses as [ | | | | | items | ]; try discriminate.
    destruct items; [congruence | reflexivity].
  - intros txOptions W h w. unfold BrandedToken.liftRestriction.
    destruct (negb (Js.truthy txOptions)); [eexists; apply run_Reject |].
    destruct (negb (isAddress _)); eexists; apply run_Reject.
Qed.

Lemma liftRestrictionRawTx_rejects_iff_witness :
  BrandedToken.liftRestrictionRawTx Sample.bt
    (Js.VArr [Js.VStr Sample.owner; Js.VStr Sample.worker])
  = Resolve (MethodTx (BrandedToken.contract Sample.bt) "liftRestriction"
               [Js.VArr [Js.VStr Sample.owner; Js.VStr Sample.worker]]).
Proof.
  apply (liftRestrictionRawTx_rejects_iff Sample.imports Sample.bt
           (Js.VArr [Js.VStr Sample.owner; Js.VStr Sample.worker]));
    [reflexivity | reflexivity | discriminate].
Defined.

(** ** The constructor *)

(** C10: [new BrandedToken(web3, address)] either returns an instance whose
    [web3] is the given Web3 instance, whose [address] is the given valid
    address and whose contract binding is truthy (so neither [null] nor
    [undefined]), or throws a [TypeError], and it throws exactly when one of
    the three conditions fails. *)
Theorem constructor_establishes_invariant
    (imp : Imports) (web3 address : Js.value) :
  match BrandedToken.constructor web3 address with
  | Return this =>
      BrandedToken.wellFormed this = true
      /\ BrandedToken.web3 this = web3
      /\ BrandedToken.address this = address
      /\ BrandedToken.contract this = getBrandedToken web3 address
      /\ BrandedToken.contract this <> Js.VNull
      /\ BrandedToken.contract this <> Js.VUndefined
  | Throw e =>
      isTypeError e = true
      /\ (Js.instanceof web3 "Web3" && isAddress address
          && Js.truthy (getBrandedToken web3 address)) = false
  end.
Proof.
  unfold BrandedToken.constructor, BrandedToken.wellFormed.
  destruct (Js.instanceof web3 "Web3") eqn:Hw; cbn [negb andb]; [| split; reflexivity].
  destruct (isAddress address) eqn:Ha; cbn [negb andb]; [| split; reflexivity].
  destruct (Js.truthy (getBrandedToken web3 address)) eqn:Hc; cbn [negb andb];
    [| split; reflexivity].
  cbn [BrandedToken.web3 BrandedToken.address BrandedToken.contract].
  rewrite Hw, Ha, Hc.
  repeat split; intros Heq; rewrite Heq in Hc; discriminate.
Qed.

Example constructor_examples :
  BrandedToken.constructor (imp := Sample.imports) Sample.web3 (Js.VStr Sample.brandedToken)
    = Return Sample.bt
  /\ BrandedToken.constructor (imp := Sample.imports) Sample.web3 (Js.VStr "0x12")
    = Throw (TypeError "Mandatory Parameter 'address' is missing or invalid: 0x12")
  /\ BrandedToken.constructor (imp := Sample.imports) Js.VUndefined (Js.VStr Sample.brandedToken)
    = Throw (TypeError "Mandatory Parameter 'web3' is missing or invalid")
  /\ BrandedToken.constructor (imp := Sample.importsWithoutContract) Sample.web3
       (Js.VStr Sample.brandedToken)
    = Throw (TypeError
        "Could not load branded token contract for: 0x00000000000000000000000000000000000000d4").
Proof. repeat split. Qed.

(** ** Deployment *)

(** C1: [deployRawTx] called with [conversionRateDecimals = 5] never returns
    a raw transaction: it throws a [TypeError] whatever the other arguments
    are, and with the configuration of the scenario (valid web3 and
    addresses, rate 1000, as a number or as the string the test suite
    passes) the error is the one of the decimals check.  The conversion of
    the scenario itself is [200 * 1000 / 10^5 = 2]. *)
Theorem deployRawTx_five_decimals_throws :
  (forall (imp : Imports)
          (web3 valueToken symbol name decimals conversionRate organization : Js.value),
      exists msg,
        BrandedToken.deployRawTx web3 valueToken symbol name decimals conversionRate
          (Js.VNum 5) organization
        = Throw (TypeError msg))
  /\ BrandedToken.deployRawTx (imp := Sample.imports) Sample.web3
       (Js.VStr Sample.valueToken) (Js.VStr "BT") (Js.VStr "MyBrandedToken") (Js.VStr "18")
       (Js.VNum 1000) (Js.VNum 5) (Js.VStr Sample.organization)
     = Throw (TypeError "Invalid conversion rate decimal: 5. It should be less than 5")
  /\ BrandedToken.deployRawTx (imp := Sample.imports) Sample.web3
       (Js.VStr Sample.valueToken) (Js.VStr "BT") (Js.VStr "MyBrandedToken") (Js.VStr "18")
       (Js.VStr "1000") (Js.VNum 5) (Js.VStr Sample.organization)
     = Throw (TypeError "Invalid conversion rate decimal: 5. It should be less than 5")
  /\ Registry.computeMintAmount 1000 5 200 = 2.
Proof.
  split; [| repeat split].
  intros imp web3 valueToken symbol name decimals conversionRate organization.
  unfold BrandedToken.deployRawTx.
  destruct (negb (Js.instanceof web3 "Web3")); [eauto |].
  destruct (negb (isAddress valueToken)); [eauto |].
  destruct (negb (isAddress organization)); [eauto |].
  destruct (negb (Js.gt conversionRate (Js.VNum 0))); [eauto |].
  change (Js.lt (Js.VNum 5) (Js.VNum 5)) with false. cbn [negb]. eauto.
Qed.

(** With four decimals the same call returns the deployment transaction. *)
Example deployRawTx_four_decimals :
  BrandedToken.deployRawTx (imp := Sample.imports) Sample.web3
    (Js.VStr Sample.valueToken) (Js.VStr "BT") (Js.VStr "MyBrandedToken") (Js.VStr "18")
    (Js.VNum 1000) (Js.VNum 4) (Js.VStr Sample.organization)
  = Return (DeployTx (Js.VObj "Contract" [("address", Js.VUndefined)])
              (Js.VStr "0x60806040:BrandedToken")
              [Js.VStr Sample.valueToken; Js.VStr "BT"; Js.VStr "MyBrandedToken";
               Js.VStr "18"; Js.VNum 1000; Js.VNum 4; Js.VStr Sample.organization]).
Proof. reflexivity. Qed.

(** ** Acceptance *)

(** C3 as stated fails: with a valid request hash, signature and transaction
    options, the acceptance is submitted although the hash lock passed with
    it is malformed. *)
Lemma accept_submits_with_malformed_lock :
  Lock.wellFormed (Js.VStr "0x12") = false
  /\ firstSend (fun _ => Js.VUndefined)
       (BrandedToken.acceptStakeRequest_apply (imp := Sample.imports) Sample.bt
          [Js.VStr "0xabc1"; Js.VStr "0x01"; Js.VStr "0x02"; Js.VNum 27;
           Sample.txOptions; Js.VStr "0x12"])
     = Some (MethodTx (BrandedToken.contract Sample.bt) "acceptStakeRequest"
               [Js.VStr "0xabc1"; Js.VStr "0x01"; Js.VStr "0x02"; Js.VNum 27],
             Sample.txOptions)
  /\ ~ Lock.acceptRequiresWellFormedLock Sample.imports.
Proof.
  split; [reflexivity |]. split; [reflexivity |].
  intros Hclaim.
  specialize (Hclaim Sample.bt (Js.VStr "0xabc1") (Js.VStr "0x01") (Js.VStr "0x02")
                (Js.VNum 27) Sample.txOptions (Js.VStr "0x12") (fun _ => Js.VUndefined)
                eq_refl).
  discriminate Hclaim.
Qed.

(** C3, amended: the acceptance takes the request hash, the signature
    components [r], [s], [v] and the transaction options, and nothing else:
    any further argument, a hash lock included, has no influence on it, and
    the transaction it submits is [acceptStakeRequest] over exactly
    [(stakeRequestHash, r, s, v)]. *)
Theorem acceptStakeRequest_takes_no_hash_lock
    (imp : Imports) (this : BrandedToken.t)
    (stakeRequestHash r s v txOptions : Js.value) (extra : list Js.value) :
  BrandedToken.acceptStakeRequest_apply this
    ([stakeRequestHash; r; s; v; txOptions] ++ extra)
  = BrandedToken.acceptStakeRequest this stakeRequestHash r s v txOptions
  /\ forall (answers : Event -> Js.value) (sent : RawTx * Js.value),
       firstSend answers
         (BrandedToken.acceptStakeRequest this stakeRequestHash r s v txOptions)
       = Some sent ->
       sent = (MethodTx (BrandedToken.contract this) "acceptStakeRequest"
                 [stakeRequestHash; r; s; v], txOptions).
Proof.
  split; [reflexivity |].
  intros answers sent.
  unfold BrandedToken.acceptStakeRequest, BrandedToken.acceptStakeRequestRawTx.
  destruct (negb (Js.truthy txOptions)); [discriminate |].
  destruct (negb (isAddress _)); [discriminate |].
  destruct (negb (Js.truthy stakeRequestHash)); [discriminate |].
  destruct (negb (Js.truthy r)); [discriminate |].
  destruct (negb (Js.truthy s)); [discriminate |].
  destruct (negb (Js.truthy v)); [discriminate |].
  simpl. congruence.
Qed.

(** ** The allowance *)

Lemma create_error_kinds rate decimals hash st rq e :
  Registry.create rate decimals hash st rq = Err e ->
  e = DuplicateRequest \/ e = InvalidNonce \/ e = ValidationError.
Proof.
  unfold Registry.create.
  destruct (Registry.lookupStaker st (Registry.staker rq)); [intros [= <-]; auto |].
  destruct (negb (Registry.isValid _ _ _)); [intros [= <-]; auto |].
  destruct (negb (0 <? _)%Z); [intros [= <-]; auto |].
  destruct (negb (_ =? _)%Z); [intros [= <-]; auto | discriminate].
Qed.

(** C2 as stated fails: in a world where the owner has granted no allowance,
    [requestStake] of 200 with valid transaction options submits the
    [requestStake] transaction, and what comes back is the ledger's failure
    of that transaction, not [InsufficientAllowance]. *)
Lemma requestStake_submits_without_allowance :
  Ledger.allowanceOf Sample.noAllowance (Ledger.fromOf Sample.txOptions) = 0
  /\ (let r := run Sample.handler
                 (BrandedToken.requestStake (imp := Sample.imports) Sample.bt
                    (Js.VNum 200) Sample.txOptions)
                 Sample.noAllowance in
      outcome r = Rejected (Failure LedgerError)
      /\ submitted (events r)
         = [(MethodTx (BrandedToken.contract Sample.bt) "requestStake"
               [Js.VNum 200; Js.VNum 2], Sample.txOptions)])
  /\ ~ Allowance.requestStakeVerifiesAllowance Sample.imports Sample.handler.
Proof.
  split; [reflexivity |]. split; [vm_compute; split; reflexivity |].
  intros Hclaim.
  specialize (Hclaim Sample.bt (Js.VNum 200) Sample.txOptions 200 Sample.noAllowance
                eq_refl eq_refl eq_refl).
  destruct Hclaim as (_ & Hsub & _).
  vm_compute in Hsub. discriminate Hsub.
Qed.

Lemma requestStake_valid (imp : Imports) this stakeAmount txOptions :
  validTxOptions txOptions = true ->
  BrandedToken.requestStake this stakeAmount txOptions =
    Await (ContractCall (BrandedToken.contract this) "convertToBrandedTokens" [stakeAmount])
      (fun mintedAmount =>
         Await (SendTransaction
                  (MethodTx (BrandedToken.contract this) "requestStake"
                     [stakeAmount; mintedAmount])
                  txOptions)
           Resolve).
Proof.
  intros [Ht Ha]%validTxOptions_true.
  unfold BrandedToken.requestStake. guards. reflexivity.
Qed.

Lemma executeRequestStake_insufficient rate decimals hash w sender stake mint :
  (Ledger.allowanceOf w sender < stake)%Z ->
  exists k, Ledger.executeRequestStake rate decimals hash w sender stake mint
            = (Rejected (Failure k), w)
            /\ k <> InsufficientAllowance.
Proof.
  intros Hlow. unfold Ledger.executeRequestStake.
  destruct (Registry.create _ _ _ _ _) as [[h st'] | e] eqn:Hcreate.
  - apply Z.ltb_lt in Hlow. rewrite Hlow. exists LedgerError. split; [reflexivity | discriminate].
  - exists e. split; [reflexivity |].
    apply create_error_kinds in Hcreate. destruct Hcreate as [-> | [-> | ->]]; discriminate.
Qed.

(** C2, amended: [requestStake] makes no allowance check of its own (the
    approval is a precondition of the call).  With valid transaction options
    and a numeric stake it converts the stake and submits the
    [requestStake] transaction whatever the allowance is; when the allowance
    is below the stake, the rejection is the one the submitted transaction
    comes back with, never [InsufficientAllowance], and the world is
    unchanged. *)
Theorem requestStake_submits_whatever_the_allowance
    (imp : Imports) (rate decimals : Z) (hash : Registry.StakeRequest -> Registry.Digest)
    (this : BrandedToken.t) (stakeAmount txOptions : Js.value) (n : Z) (w : Ledger.World) :
  validTxOptions txOptions = true ->
  Js.ToNumber stakeAmount = Some n ->
  let r := run (Ledger.handler rate decimals hash)
             (BrandedToken.requestStake this stakeAmount txOptions) w in
  submitted (events r)
  = [(MethodTx (BrandedToken.contract this) "requestStake"
        [stakeAmount; Js.VNum (Registry.computeMintAmount rate decimals n)], txOptions)]
  /\ ((Ledger.allowanceOf w (Ledger.fromOf txOptions) < n)%Z ->
      world r = w
      /\ exists k, outcome r = Rejected (Failure k) /\ k <> InsufficientAllowance).
Proof.
  intros Hvalid Hnum r. subst r.
  rewrite (requestStake_valid _ _ _ _ Hvalid).
  cbn [run Ledger.handler]. rewrite String.eqb_refl, Hnum.
  cbn [run Ledger.handler]. rewrite String.eqb_refl. cbn [Js.ToNumber].
  split.
  - destruct (Ledger.executeRequestStake _ _ _ _ _ _ _) as [[v | e] w']; reflexivity.
  - intros Hlow.
    destruct (executeRequestStake_insufficient rate decimals hash w
                (Ledger.fromOf txOptions) n
                (Registry.computeMintAmount rate decimals n) Hlow) as (k & Hexec & Hk).
    rewrite Hexec. split; [reflexivity |]. exists k. split; [reflexivity | exact Hk].
Qed.

Lemma requestStake_submits_whatever_the_allowance_witness :
  validTxOptions (imp := Sample.imports) Sample.txOptions = true
  /\ submitted (events (run (Ledger.handler 1000 5 Sample.hash)
                          (BrandedToken.requestStake (imp := Sample.imports) Sample.bt
                             (Js.VNum 200) Sample.txOptions)
                          Sample.noAllowance))
     = [(MethodTx (BrandedToken.contract Sample.bt) "requestStake"
           [Js.VNum 200; Js.VNum (Registry.computeMintAmount 1000 5 200)],
         Sample.txOptions)].
Proof.
  split; [reflexivity |].
  apply (requestStake_submits_whatever_the_allowance Sample.imports 1000 5 Sample.hash
           Sample.bt (Js.VNum 200) Sample.txOptions 200 Sample.noAllowance);
    reflexivity.
Defined.

(** ** The registry *)

Section RegistryFacts.
Variable conversionRate conversionRateDecimals : Z.
Variable hash : Registry.StakeRequest -> Registry.Digest.
Variable recover : Registry.Digest -> Registry.Signature -> option Registry.Identity.
Variable currentWorkers : gset string.
Variable lockWellFormed : string -> bool.
Variable releaseValue returnValue : Registry.StakeRequest -> bool.

Lemma openRequest_Some st h rq :
  Registry.openRequest st h = Some rq ->
  Registry.lookupHash st h = Some rq
  /\ Registry.lookupStaker st (Registry.staker rq) = Some h.
Proof.
  unfold Registry.openRequest.
  destruct (Registry.lookupHash st h) as [rq' |]; [| discriminate].
  case_decide; [| discriminate]. intros [= <-]. split; [reflexivity | assumption].
Qed.

Lemma clear_lookupStaker st h rq s :
  Registry.lookupStaker (Registry.clear st h rq) s =
    if decide (Registry.staker rq = s) then None else Registry.lookupStaker st s.
Proof.
  unfold Registry.lookupStaker, Registry.clear. cbn [Registry.stakerToHash].
  unfold Registry.Identity in *.
  case_decide as Hs.
  - subst s. apply lookup_delete_eq.
  - apply lookup_delete_ne. exact Hs.
Qed.

Lemma clear_lookupHash st h rq h' :
  Registry.lookupHash (Registry.clear st h rq) h' =
    if decide (h = h') then None else Registry.lookupHash st h'.
Proof.
  unfold Registry.lookupHash, Registry.clear. cbn [Registry.requests].
  unfold Registry.Digest in *.
  case_decide as Hh.
  - subst h'. apply lookup_delete_eq.
  - apply lookup_delete_ne. exact Hh.
Qed.

Lemma accept_Ok st h sg hl st' :
  Registry.accept recover currentWorkers lockWellFormed releaseValue st h sg hl = Ok st' ->
  exists rq, Registry.openRequest st h = Some rq /\ st' = Registry.clear st h rq.
Proof.
  unfold Registry.accept.
  destruct (Registry.openRequest st h) as [rq |]; [| discriminate].
  destruct (Registry.verify recover h sg currentWorkers); [| discriminate].
  destruct (negb (lockWellFormed _)); [discriminate |].
  destruct (negb (releaseValue rq)); [discriminate |].
  intros [= <-]. exists rq. split; reflexivity.
Qed.

(** On the registry a lock that is not well-formed does stop the accept;
    the lock reaches it from the caller of the registry, not from
    [BrandedToken.acceptStakeRequest]. *)
Lemma accept_malformed_lock st h sg hl :
  lockWellFormed (Registry.lock hl) = false ->
  forall st',
    Registry.accept recover currentWorkers lockWellFormed releaseValue st h sg hl <> Ok st'.
Proof.
  intros Hbad st'. unfold Registry.accept.
  destruct (Registry.openRequest st h) as [rq |]; [| discriminate].
  destruct (Registry.verify recover h sg currentWorkers); [| discriminate].
  rewrite Hbad. discriminate.
Qed.

Lemma reject_Ok st h caller st' :
  Registry.reject currentWorkers returnValue st h caller = Ok st' ->
  exists rq, Registry.openRequest st h = Some rq /\ st' = Registry.clear st h rq.
Proof.
  unfold Registry.reject.
  destruct (Registry.openRequest st h) as [rq |]; [| discriminate].
  case_decide; [| discriminate].
  destruct (negb (returnValue rq)); [discriminate |].
  intros [= <-]. exists rq. split; reflexivity.
Qed.

End RegistryFacts.

(** C7: after a successful accept of an open request, the lookup by staker
    gives no request hash and the lookup by request hash gives no record;
    the two mappings are cleared in the same step, every other entry of
    either mapping is as before, and a repeated accept on the hash fails
    with [RequestNotFound]. *)
Theorem accept_clears_both_lookups
    (recover : Registry.Digest -> Registry.Signature -> option Registry.Identity)
    (currentWorkers : gset string) (lockWellFormed : string -> bool)
    (releaseValue : Registry.StakeRequest -> bool)
    (st st' : Registry.State) (h : Registry.Digest)
    (sg : Registry.Signature) (hl : Registry.HashLock) :
  Registry.accept recover currentWorkers lockWellFormed releaseValue st h sg hl = Ok st' ->
  exists rq,
    (Registry.lookupHash st h = Some rq
     /\ Registry.lookupStaker st (Registry.staker rq) = Some h)
    /\ (Registry.lookupStaker st' (Registry.staker rq) = None
        /\ Registry.lookupHash st' h = None)
    /\ (forall s, s <> Registry.staker rq ->
          Registry.lookupStaker st' s = Registry.lookupStaker st s)
    /\ (forall h', h' <> h -> Registry.lookupHash st' h' = Registry.lookupHash st h')
    /\ (forall sg' hl',
          Registry.accept recover currentWorkers lockWellFormed releaseValue st' h sg' hl'
          = Err RequestNotFound).
Proof.
  intros Hacc.
  destruct (accept_Ok _ _ _ _ _ _ _ _ _ Hacc) as (rq & Hopen & ->).
  exists rq. split; [exact (openRequest_Some _ _ _ Hopen) |].
  assert (Hgone : Registry.lookupHash (Registry.clear st h rq) h = None).
  { rewrite clear_lookupHash. case_decide; [reflexivity | congruence]. }
  split; [split; [| exact Hgone] |].
  { rewrite clear_lookupStaker. case_decide; [reflexivity | congruence]. }
  split; [| split].
  - intros s Hs. rewrite clear_lookupStaker. case_decide; [congruence | reflexivity].
  - intros h' Hh. rewrite clear_lookupHash. case_decide; [congruence | reflexivity].
  - intros sg' hl'. unfold Registry.accept, Registry.openRequest.
    rewrite Hgone. reflexivity.
Qed.

Lemma create_open rate decimals hash st rq h :
  Registry.lookupStaker st (Registry.staker rq) = Some h ->
  Registry.create rate decimals hash st rq = Err DuplicateRequest.
Proof. intros Hopen. unfold Registry.create. rewrite Hopen. reflexivity. Qed.

(** C8: while a staker's request is open, every create for that staker
    fails with [DuplicateRequest], whatever the nonce and the amounts of the
    new request; and a [requestStake] of the client sent by that staker
    comes back rejected with [DuplicateRequest], the world unchanged. *)
Theorem create_while_open_is_duplicate
    (conversionRate conversionRateDecimals : Z)
    (hash : Registry.StakeRequest -> Registry.Digest)
    (w : Ledger.World) (sender : Registry.Identity) (h : Registry.Digest) :
  Registry.lookupStaker (Ledger.registry w) sender = Some h ->
  (forall rq : Registry.StakeRequest,
      Registry.staker rq = sender ->
      Registry.create conversionRate conversionRateDecimals hash (Ledger.registry w) rq
      = Err DuplicateRequest)
  /\ (forall (imp : Imports) (this : BrandedToken.t) (stakeAmount txOptions : Js.value)
             (n : Z),
        validTxOptions txOptions = true ->
        Js.ToNumber stakeAmount = Some n ->
        Ledger.fromOf txOptions = sender ->
        let r := run (Ledger.handler conversionRate conversionRateDecimals hash)
                   (BrandedToken.requestStake this stakeAmount txOptions) w in
        outcome r = Rejected (Failure DuplicateRequest) /\ world r = w).
Proof.
  intros Hopen. split.
  - intros rq Hrq. apply (create_open _ _ _ _ _ h). rewrite Hrq. exact Hopen.
  - intros imp this stakeAmount txOptions n Hvalid Hnum Hfrom r. subst r.
    rewrite (requestStake_valid _ _ _ _ Hvalid).
    cbn [run Ledger.handler]. rewrite String.eqb_refl, Hnum.
    cbn [run Ledger.handler]. rewrite String.eqb_refl. cbn [Js.ToNumber].
    unfold Ledger.executeRequestStake.
    rewrite (create_open _ _ _ _ _ h); [split; reflexivity |].
    cbn [Registry.staker]. rewrite Hfrom. exact Hopen.
Qed.

(** ** The scenario of the test suite, run *)

Example scenario_first_create :
  Scenario.create Registry.empty Scenario.request
  = Ok (Scenario.requestHash, Scenario.opened).
Proof. vm_compute. reflexivity. Qed.

(** The second create of the scenario, with the nonce 1 again: the open
    request is found before the nonce is looked at. *)
Example scenario_second_create :
  Scenario.create Scenario.opened Scenario.request = Err DuplicateRequest.
Proof. vm_compute. reflexivity. Qed.

(** Once the request is cleared, the stale nonce is what fails. *)
Example scenario_stale_nonce_after_clear :
  Scenario.create Scenario.accepted Scenario.request = Err InvalidNonce.
Proof. vm_compute. reflexivity. Qed.

Example scenario_unauthorized_signer :
  Scenario.accept Scenario.opened Scenario.requestHash
    (Registry.mkSignature Sample.owner Scenario.requestHash 27) Scenario.hashLock
  = Err UnauthorizedSigner.
Proof. vm_compute. reflexivity. Qed.

Lemma accept_clears_both_lookups_witness :
  Scenario.accept Scenario.opened Scenario.requestHash Scenario.workerSignature
    Scenario.hashLock = Ok Scenario.accepted
  /\ exists rq,
       Registry.lookupStaker Scenario.accepted (Registry.staker rq) = None
       /\ Registry.lookupHash Scenario.accepted Scenario.requestHash = None.
Proof.
  assert (Hacc : Scenario.accept Scenario.opened Scenario.requestHash
                   Scenario.workerSignature Scenario.hashLock = Ok Scenario.accepted)
    by (vm_compute; reflexivity).
  split; [exact Hacc |].
  destruct (accept_clears_both_lookups Scenario.recover Scenario.workers
              Scenario.lockWellFormed (fun _ => true) Scenario.opened Scenario.accepted
              Scenario.requestHash Scenario.workerSignature Scenario.hashLock Hacc)
    as (rq & _ & Hcleared & _).
  exists rq. exact Hcleared.
Defined.

Lemma create_while_open_is_duplicate_witness :
  Registry.lookupStaker Scenario.opened Sample.owner = Some Scenario.requestHash
  /\ Registry.create 1000 5 Sample.hash Scenario.opened
       (Registry.mkRequest Sample.owner 300 3 "" 0 0 "" 2)
     = Err DuplicateRequest.
Proof.
  split; [vm_compute; reflexivity |].
  apply (create_while_open_is_duplicate 1000 5 Sample.hash
           (Ledger.mkWorld {[ Sample.owner := 800 ]} Scenario.opened)
           Sample.owner Scenario.requestHash).
  - vm_compute. reflexivity.
  - reflexivity.
Defined.

(** The same through the client: a second [requestStake] by the owner while
    the first request is open comes back rejected with [DuplicateRequest]. *)
Example second_requestStake_is_duplicate :
  let first := run Sample.handler
                 (BrandedToken.requestStake (imp := Sample.imports) Sample.bt
                    (Js.VNum 200) Sample.txOptions)
                 Sample.approved in
  let second := run Sample.handler
                  (BrandedToken.requestStake (imp := Sample.imports) Sample.bt
                     (Js.VNum 200) Sample.txOptions)
                  (world first) in
  Ledger.registry (world first) = Scenario.opened
  /\ outcome second = Rejected (Failure DuplicateRequest)
  /\ world second = world first.
Proof. vm_compute. repeat split. Qed.

(** * Further properties of the contract-interact layer *)

(** ** Running the submitting methods *)

Lemma run_sendTransaction {W : Type} (h : Handler W) tx txOptions w :
  run h (BrandedToken.sendTransaction tx txOptions) w
  = answer h (SendTransaction tx txOptions) w.
Proof.
  unfold BrandedToken.sendTransaction, answer. cbn [run].
  destruct (h _ w) as [[v | e] w']; reflexivity.
Qed.

Lemma validTxOptions_guards (imp : Imports) txOptions :
  validTxOptions txOptions = true ->
  negb (Js.truthy txOptions) = false
  /\ negb (isAddress (Js.getProp txOptions "from")) = false.
Proof.
  intros [Ht Ha]%validTxOptions_true. rewrite Ht, Ha. split; reflexivity.
Qed.

Lemma invalidTxOptions_guards (imp : Imports) txOptions :
  validTxOptions txOptions = false ->
  negb (Js.truthy txOptions) = true
  \/ (negb (Js.truthy txOptions) = false
      /\ negb (isAddress (Js.getProp txOptions "from")) = true).
Proof.
  unfold validTxOptions.
  destruct (Js.truthy txOptions); cbn [andb negb]; [| auto].
  intros ->. auto.
Qed.

(** The acceptance, end to end: with valid transaction options and four
    truthy arguments the run is the single submission of
    [acceptStakeRequest(stakeRequestHash, r, s, v)] and its result is the
    world's answer to it; in every other case the promise is rejected with
    a [TypeError], nothing is issued and the world is untouched. *)
Theorem acceptStakeRequest_run
    (imp : Imports) (this : BrandedToken.t)
    (stakeRequestHash r s v txOptions : Js.value)
    (W : Type) (h : Handler W) (w : W) :
  if validTxOptions txOptions && forallb Js.truthy [stakeRequestHash; r; s; v]
  then run h (BrandedToken.acceptStakeRequest this stakeRequestHash r s v txOptions) w
       = answer h (SendTransaction
                     (MethodTx (BrandedToken.contract this) "acceptStakeRequest"
                        [stakeRequestHash; r; s; v]) txOptions) w
  else exists msg,
       run h (BrandedToken.acceptStakeRequest this stakeRequestHash r s v txOptions) w
       = (Rejected (TypeError msg), w, []).
Proof.
  unfold BrandedToken.acceptStakeRequest, BrandedToken.acceptStakeRequestRawTx.
  destruct (validTxOptions txOptions) eqn:Hv; cbn [andb].
  - destruct (validTxOptions_guards _ _ Hv) as [-> ->].
    cbn [forallb].
    destruct (Js.truthy stakeRequestHash); cbn [negb andb]; [| eexists; apply run_Reject].
    destruct (Js.truthy r); cbn [negb andb]; [| eexists; apply run_Reject].
    destruct (Js.truthy s); cbn [negb andb]; [| eexists; apply run_Reject].
    destruct (Js.truthy v); cbn [negb andb]; [| eexists; apply run_Reject].
    apply run_sendTransaction.
  - destruct (invalidTxOptions_guards _ _ Hv) as [-> | [-> ->]];
      eexists; apply run_Reject.
Qed.

(** The rejection of a stake request, end to end: with valid transaction
    options and a truthy request hash the run is the single submission of
    [rejectStakeRequest(stakeRequestHash)]; otherwise the promise is
    rejected with a [TypeError] and nothing is issued. *)
Theorem rejectStakeRequest_run
    (imp : Imports) (this : BrandedToken.t) (stakeRequestHash txOptions : Js.value)
    (W : Type) (h : Handler W) (w : W) :
  if validTxOptions txOptions && Js.truthy stakeRequestHash
  then run h (BrandedToken.rejectStakeRequest this stakeRequestHash txOptions) w
       = answer h (SendTransaction
                     (MethodTx (BrandedToken.contract this) "rejectStakeRequest"
                        [stakeRequestHash]) txOptions) w
  else exists msg,
       run h (BrandedToken.rejectStakeRequest this stakeRequestHash txOptions) w
       = (Rejected (TypeError msg), w, []).
Proof.
  unfold BrandedToken.rejectStakeRequest, BrandedToken.rejectStakeRequestRawTx.
  destruct (validTxOptions txOptions) eqn:Hv; cbn [andb].
  - destruct (validTxOptions_guards _ _ Hv) as [-> ->].
    destruct (Js.truthy stakeRequestHash); cbn [negb];
      [apply run_sendTransaction | eexists; apply run_Reject].
  - destruct (invalidTxOptions_guards _ _ Hv) as [-> | [-> ->]];
      eexists; apply run_Reject.
Qed.

(** Lifting restrictions, end to end, for every value of [addresses]: the
    run is the single submission of [liftRestriction(addresses)], the whole
    value being its one argument, when the transaction options are valid,
    [addresses] is truthy and its [length] is not the number 0; otherwise
    the promise is rejected with a [TypeError] and nothing is issued. *)
Theorem liftRestriction_run
    (imp : Imports) (this : BrandedToken.t) (addresses txOptions : Js.value)
    (W : Type) (h : Handler W) (w : W) :
  if validTxOptions txOptions && Js.truthy addresses
     && negb (Js.strictEqNum (Js.getProp addresses "length") 0)
  then run h (BrandedToken.liftRestriction this addresses txOptions) w
       = answer h (SendTransaction
                     (MethodTx (BrandedToken.contract this) "liftRestriction"
                        [addresses]) txOptions) w
  else exists msg,
       run h (BrandedToken.liftRestriction this addresses txOptions) w
       = (Rejected (TypeError msg), w, []).
Proof.
  unfold BrandedToken.liftRestriction, BrandedToken.liftRestrictionRawTx.
  destruct (validTxOptions txOptions) eqn:Hv; cbn [andb].
  - destruct (validTxOptions_guards _ _ Hv) as [-> ->].
    destruct (Js.truthy addresses); cbn [negb orb andb]; [| eexists; apply run_Reject].
    destruct (Js.strictEqNum _ 0); cbn [negb];
      [eexists; apply run_Reject | apply run_sendTransaction].
  - destruct (invalidTxOptions_guards _ _ Hv) as [-> | [-> ->]];
      eexists; apply run_Reject.
Qed.

(** Requesting a stake, end to end: with valid transaction options the
    conversion call comes first; if it is rejected, [requestStake] is
    rejected with the same error and nothing is submitted; if it is
    fulfilled, the submission of [requestStake(stakeAmount, mintedAmount)]
    meets the world the call left and its answer is the result. *)
Theorem requestStake_run
    (imp : Imports) (this : BrandedToken.t) (stakeAmount txOptions : Js.value)
    (W : Type) (h : Handler W) (w : W) :
  let call := ContractCall (BrandedToken.contract this) "convertToBrandedTokens"
                [stakeAmount] in
  let send := fun mintedAmount =>
                SendTransaction
                  (MethodTx (BrandedToken.contract this) "requestStake"
                     [stakeAmount; mintedAmount]) txOptions in
  if validTxOptions txOptions
  then match h call w with
       | (Fulfilled mintedAmount, w1) =>
           run h (BrandedToken.requestStake this stakeAmount txOptions) w
           = ((h (send mintedAmount) w1).1, (h (send mintedAmount) w1).2,
              [call; send mintedAmount])
       | (Rejected e, w1) =>
           run h (BrandedToken.requestStake this stakeAmount txOptions) w
           = (Rejected e, w1, [call])
       end
  else exists msg,
       run h (BrandedToken.requestStake this stakeAmount txOptions) w
       = (Rejected (TypeError msg), w, []).
Proof.
  intros call send. subst call send.
  destruct (validTxOptions txOptions) eqn:Hv.
  - rewrite (requestStake_valid _ _ _ _ Hv). cbn [run].
    destruct (h _ w) as [[m | e] w1]; [| reflexivity].
    destruct (h _ w1) as [[v | e] w2]; reflexivity.
  - unfold BrandedToken.requestStake.
    destruct (invalidTxOptions_guards _ _ Hv) as [-> | [-> ->]];
      eexists; apply run_Reject.
Qed.

(** ** Deployment *)

Lemma deployRawTx_cases
    (imp : Imports)
    (web3 valueToken symbol name decimals conversionRate
     conversionRateDecimals organization : Js.value) :
  if Js.instanceof web3 "Web3" && isAddress valueToken && isAddress organization
     && Js.gt conversionRate (Js.VNum 0) && Js.lt conversionRateDecimals (Js.VNum 5)
     && negb (Args.missing (getBrandedToken web3 Js.VUndefined))
  then BrandedToken.deployRawTx web3 valueToken symbol name decimals conversionRate
         conversionRateDecimals organization
       = Return (DeployTx (getBrandedToken web3 Js.VUndefined)
                   (getBIN "BrandedToken")
                   [valueToken; symbol; name; decimals; conversionRate;
                    conversionRateDecimals; organization])
  else exists msg,
       BrandedToken.deployRawTx web3 valueToken symbol name decimals conversionRate
         conversionRateDecimals organization
       = Throw (TypeError msg).
Proof.
  unfold BrandedToken.deployRawTx.
  destruct (Js.instanceof web3 "Web3"); cbn [negb andb]; [| eauto].
  destruct (isAddress valueToken); cbn [negb andb]; [| eauto].
  destruct (isAddress organization); cbn [negb andb]; [| eauto].
  destruct (Js.gt conversionRate (Js.VNum 0)); cbn [negb andb]; [| eauto].
  destruct (Js.lt conversionRateDecimals (Js.VNum 5)); cbn [negb andb]; [| eauto].
  destruct (getBrandedToken web3 Js.VUndefined); cbn [Args.missing negb]; eauto.
Qed.


(** *** Numbers and their decimal strings *)

Lemma pretty_N_char_digit (d : N) :
  (d < 10)%N ->
  Js.isDigit (pretty_N_char d) = true
  /\ Z.of_nat (nat_of_ascii (pretty_N_char d)) - 48 = Z.of_N d.
Proof.
  intros Hd.
  assert (d = 0 \/ d = 1 \/ d = 2 \/ d = 3 \/ d = 4 \/ d = 5 \/ d = 6 \/ d = 7
          \/ d = 8 \/ d = 9)%N as Hcases by lia.
  repeat (destruct Hcases as [-> | Hcases]; [split; reflexivity |]).
  subst d. split; reflexivity.
Qed.

Lemma digits_pretty_N_go (x : N) :
  exists k : Z, 0 <= k /\
    forall (acc : Z) (s : string),
      Js.digits acc (pretty_N_go x s) = Js.digits (acc * 10 ^ k + Z.of_N x) s.
Proof.
  induction (N.lt_wf_0 x) as [x _ IH].
  destruct (decide (x = 0%N)) as [-> | Hx].
  - exists 0. split; [lia |]. intros acc s. rewrite pretty_N_go_0. f_equal. lia.
  - assert (0 < x)%N as Hpos by lia.
    destruct (IH (x `div` 10)%N) as (k & Hk & Hgo).
    { apply N.div_lt; lia. }
    exists (k + 1). split; [lia |]. intros acc s.
    rewrite pretty_N_go_step by exact Hpos. rewrite Hgo.
    destruct (pretty_N_char_digit (x `mod` 10)%N) as [Hdig Hval].
    { apply N.mod_lt. lia. }
    cbn [Js.digits]. rewrite Hdig, Hval. f_equal.
    rewrite Z.pow_add_r by lia.
    pose proof (N.div_mod x 10 ltac:(lia)) as Hdm.
    apply (f_equal Z.of_N) in Hdm. rewrite N2Z.inj_add, N2Z.inj_mul in Hdm.
    change (Z.of_N 10) with 10 in Hdm. lia.
Qed.

Lemma digits_pretty_N (x : N) : Js.digits 0 (pretty x) = Some (Z.of_N x).
Proof.
  unfold pretty, pretty_N. case_decide as Hx.
  - subst x. reflexivity.
  - destruct (digits_pretty_N_go x) as (k & _ & Hgo). rewrite Hgo. reflexivity.
Qed.

Lemma StringToNumber_digits (s : string) (z : Z) :
  Js.digits 0 s = Some z -> Js.StringToNumber s = Some z.
Proof.
  destruct s as [| a rest]; [intros [= <-]; reflexivity |].
  cbn [Js.digits]. destruct (Js.isDigit a) eqn:Ha; [| discriminate].
  intros Hd. unfold Js.StringToNumber.
  destruct a as [[] [] [] [] [] [] [] []]; try discriminate Ha;
    cbn [Js.digits]; rewrite ?Ha; try exact Hd;
    destruct rest; cbn [Js.digits] in *; try exact Hd.
Qed.

Lemma StringToNumber_pretty (z : Z) : Js.StringToNumber (pretty z) = Some z.
Proof.
  destruct z as [| p | p].
  - reflexivity.
  - apply StringToNumber_digits. change (pretty (Z.pos p)) with (pretty (N.pos p)).
    apply digits_pretty_N.
  - change (pretty (Z.neg p)) with (String "-" (pretty (N.pos p))).
    pose proof (digits_pretty_N (N.pos p)) as Hd.
    destruct (pretty (N.pos p)) as [| a rest] eqn:Hp.
    + cbn in Hd. discriminate Hd.
    + cbn [Js.StringToNumber]. rewrite Hd. reflexivity.
Qed.

Lemma ToNumber_spells v n : spells v n -> Js.ToNumber v = Some n.
Proof. intros [-> | ->]; [reflexivity | apply StringToNumber_pretty]. Qed.

Lemma gt_spells v n (m : Z) : spells v n -> Js.gt v (Js.VNum m) = (m <? n)%Z.
Proof.
  intros Hv. pose proof (ToNumber_spells v n Hv) as Hn.
  destruct Hv as [-> | ->]; unfold Js.gt, Js.lt; cbn [Js.ToPrimitive];
    rewrite Hn; reflexivity.
Qed.

Lemma lt_spells v n (m : Z) : spells v n -> Js.lt v (Js.VNum m) = (n <? m)%Z.
Proof.
  intros Hv. pose proof (ToNumber_spells v n Hv) as Hn.
  destruct Hv as [-> | ->]; unfold Js.lt; cbn [Js.ToPrimitive];
    rewrite Hn; reflexivity.
Qed.

(** With the other guards passing, and the rate and the number of decimals
    each given as a number or as its decimal string, [deployRawTx] returns
    the deployment exactly when the rate is at least 1 and the decimals are
    at most 4, and throws a [TypeError] otherwise: there is no lower bound
    on the decimals, and 5 is refused.  The two values travel on as they
    were given, a string staying a string. *)
Theorem deployRawTx_bounds
    (imp : Imports) (web3 valueToken symbol name decimals organization : Js.value)
    (conversionRate conversionRateDecimals : Js.value) (rate places : Z) :
  Js.instanceof web3 "Web3" = true ->
  isAddress valueToken = true ->
  isAddress organization = true ->
  Args.missing (getBrandedToken web3 Js.VUndefined) = false ->
  spells conversionRate rate ->
  spells conversionRateDecimals places ->
  ((1 <= rate /\ places <= 4)%Z ->
   BrandedToken.deployRawTx web3 valueToken symbol name decimals conversionRate
     conversionRateDecimals organization
   = Return (DeployTx (getBrandedToken web3 Js.VUndefined) (getBIN "BrandedToken")
               [valueToken; symbol; name; decimals; conversionRate;
                conversionRateDecimals; organization]))
  /\ (~ (1 <= rate /\ places <= 4)%Z ->
      exists msg,
        BrandedToken.deployRawTx web3 valueToken symbol name decimals conversionRate
          conversionRateDecimals organization
        = Throw (TypeError msg)).
Proof.
  intros Hw Hv Ho Hc Hrate Hplaces.
  pose proof (deployRawTx_cases imp web3 valueToken symbol name decimals
                conversionRate conversionRateDecimals organization) as Hiff.
  rewrite Hw, Hv, Ho, Hc, (gt_spells _ _ 0 Hrate), (lt_spells _ _ 5 Hplaces) in Hiff.
  cbn [andb negb] in Hiff.
  destruct (0 <? rate)%Z eqn:Hr; cbn [andb] in Hiff.
  - destruct (places <? 5)%Z eqn:Hp.
    + split; [intros _; exact Hiff |].
      apply Z.ltb_lt in Hr. apply Z.ltb_lt in Hp. lia.
    + split; [| intros _; exact Hiff].
      apply Z.ltb_ge in Hp. lia.
  - split; [| intros _; exact Hiff].
    apply Z.ltb_ge in Hr. lia.
Qed.

Lemma deployRawTx_bounds_witness :
  BrandedToken.deployRawTx (imp := Sample.imports) Sample.web3
    (Js.VStr Sample.valueToken) (Js.VStr "BT") (Js.VStr "MyBrandedToken")
    (Js.VStr "18") (Js.VStr "1000") (Js.VNum 4) (Js.VStr Sample.organization)
  = Return (DeployTx (Js.VObj "Contract" [("address", Js.VUndefined)])
              (Js.VStr "0x60806040:BrandedToken")
              [Js.VStr Sample.valueToken; Js.VStr "BT"; Js.VStr "MyBrandedToken";
               Js.VStr "18"; Js.VStr "1000"; Js.VNum 4; Js.VStr Sample.organization]).
Proof.
  apply (deployRawTx_bounds Sample.imports Sample.web3
           (Js.VStr Sample.valueToken) (Js.VStr "BT") (Js.VStr "MyBrandedToken")
           (Js.VStr "18") (Js.VStr Sample.organization)
           (Js.VStr "1000") (Js.VNum 4) 1000 4);
    try reflexivity.
  - right. reflexivity.
  - left. reflexivity.
  - lia.
Defined.

Lemma constructor_cases (imp : Imports) (web3 address : Js.value) :
  match BrandedToken.constructor web3 address with
  | Return this =>
      BrandedToken.wellFormed this = true
      /\ BrandedToken.web3 this = web3
      /\ BrandedToken.address this = address
      /\ BrandedToken.contract this = getBrandedToken web3 address
  | Throw e => isTypeError e = true
  end.
Proof.
  unfold BrandedToken.constructor, BrandedToken.wellFormed.
  destruct (Js.instanceof web3 "Web3") eqn:Hw; cbn [negb]; [| reflexivity].
  destruct (isAddress address) eqn:Ha; cbn [negb]; [| reflexivity].
  destruct (Js.truthy (getBrandedToken web3 address)) eqn:Hc; cbn [negb]; [| reflexivity].
  cbn [BrandedToken.web3 BrandedToken.address BrandedToken.contract].
  rewrite Hw, Ha, Hc. repeat split.
Qed.

(** [deploy], end to end.  Invalid transaction options reject it with a
    [TypeError] before anything else is looked at; with valid options a
    throw of [deployRawTx] rejects it with that error and nothing is sent;
    otherwise the deployment is the one event of the run.  A rejected
    submission rejects [deploy] with the same error; a fulfilled one leads
    either to an instance that satisfies the constructor's invariant and
    sits at the receipt's [contractAddress], or to a [TypeError] raised
    after the transaction has gone out. *)
Theorem deploy_run
    (imp : Imports)
    (web3 valueToken symbol name decimals conversionRate
     conversionRateDecimals organization txOptions : Js.value)
    (W : Type) (h : Handler W) (w : W) :
  let r := run h (BrandedToken.deploy web3 valueToken symbol name decimals
                    conversionRate conversionRateDecimals organization txOptions) w in
  if validTxOptions txOptions
  then match BrandedToken.deployRawTx web3 valueToken symbol name decimals
               conversionRate conversionRateDecimals organization with
       | Throw e => r = (Rejected e, w, [])
       | Return tx =>
           match h (SendTransaction tx txOptions) w with
           | (Rejected e, w1) => r = (Rejected e, w1, [SendTransaction tx txOptions])
           | (Fulfilled txReceipt, w1) =>
               events r = [SendTransaction tx txOptions]
               /\ world r = w1
               /\ match outcome r with
                  | Fulfilled this =>
                      BrandedToken.wellFormed this = true
                      /\ BrandedToken.web3 this = web3
                      /\ BrandedToken.address this
                         = Js.getProp txReceipt "contractAddress"
                  | Rejected e => isTypeError e = true
                  end
           end
       end
  else exists msg, r = (Rejected (TypeError msg), w, []).
Proof.
  intros r. subst r. unfold BrandedToken.deploy.
  destruct (validTxOptions txOptions) eqn:Hv.
  - destruct (validTxOptions_guards _ _ Hv) as [-> ->].
    destruct (BrandedToken.deployRawTx _ _ _ _ _ _ _ _) as [tx | e]; [| reflexivity].
    cbn [ofCompletion mbind Async_bind bind BrandedToken.sendTransaction run].
    destruct (h _ w) as [[txReceipt | e] w1]; [| reflexivity].
    assert (Hctor := constructor_cases imp web3 (Js.getProp txReceipt "contractAddress")).
    destruct txReceipt; cbn [bind run];
      try (split; [reflexivity | split; reflexivity]);
      destruct (BrandedToken.constructor _ _) as [this | e];
      cbn [ofCompletion run outcome events world fst snd];
      (split; [reflexivity | split; [reflexivity |]]);
      solve [ exact Hctor | destruct Hctor as (? & ? & ? & ?); auto ].
  - destruct (invalidTxOptions_guards _ _ Hv) as [-> | [-> ->]];
      eexists; apply run_Reject.
Qed.

(** ** What the methods never do *)

Lemma NoSend_run {W A : Type} (h : Handler W) (p : Async A) :
  NoSend p -> forall w, submitted (events (run h p w)) = [].
Proof.
  induction 1 as [a | e | c m args k _ IH]; intros w; try reflexivity.
  cbn [run]. destruct (h _ w) as [[v | e] w1]; [| reflexivity].
  specialize (IH v w1). destruct (run h (k v) w1) as [[o w2] evs]. exact IH.
Qed.

Lemma AtMostOneSend_run {W A : Type} (h : Handler W) (p : Async A) :
  AtMostOneSend p -> forall w, (length (submitted (events (run h p w))) <= 1)%nat.
Proof.
  induction 1 as [a | e | c m args k _ IH | tx o k Hk]; intros w;
    try (cbn; lia).
  - cbn [run]. destruct (h _ w) as [[v | e] w1]; [| cbn; lia].
    specialize (IH v w1). destruct (run h (k v) w1) as [[o w2] evs]. exact IH.
  - cbn [run]. destruct (h _ w) as [[v | e] w1]; [| cbn; lia].
    pose proof (NoSend_run h (k v) (Hk v) w1) as Hnone.
    destruct (run h (k v) w1) as [[o' w2] evs].
    unfold events in *. cbn [snd submitted] in *. rewrite Hnone. cbn. lia.
Qed.

Lemma Targets_run {W A : Type} (h : Handler W) (c : Js.value) (p : Async A) :
  Targets c p -> forall w, Forall (fun ev => eventContract ev = c) (events (run h p w)).
Proof.
  induction 1 as [a | e | ev k Hev _ IH]; intros w; try (constructor).
  cbn [run]. destruct (h ev w) as [[v | e] w1].
  - specialize (IH v w1). destruct (run h (k v) w1) as [[o w2] evs].
    constructor; assumption.
  - constructor; [assumption | constructor].
Qed.

Lemma NoSend_ofCompletion {A : Type} (c : Completion A) : NoSend (ofCompletion c).
Proof. destruct c; constructor. Qed.

Lemma AtMostOneSend_sendTransaction tx o :
  AtMostOneSend (BrandedToken.sendTransaction tx o).
Proof. apply AtMostOneSend_Send. intros v. constructor. Qed.

Lemma AtMostOneSend_bind_pure {A B : Type} (p : Async A) (f : A -> Async B) :
  (exists a, p = Resolve a) \/ (exists e, p = Reject e) ->
  (forall a, AtMostOneSend (f a)) -> AtMostOneSend (bind p f).
Proof.
  intros [[a ->] | [e ->]] Hf; cbn [bind]; [apply Hf | constructor].
Qed.

Lemma acceptStakeRequestRawTx_pure this h r s v :
  (exists a, BrandedToken.acceptStakeRequestRawTx this h r s v = Resolve a)
  \/ (exists e, BrandedToken.acceptStakeRequestRawTx this h r s v = Reject e).
Proof.
  unfold BrandedToken.acceptStakeRequestRawTx.
  repeat match goal with |- context [if ?b then _ else _] => destruct b end; eauto.
Qed.

Lemma rejectStakeRequestRawTx_pure this h :
  (exists a, BrandedToken.rejectStakeRequestRawTx this h = Resolve a)
  \/ (exists e, BrandedToken.rejectStakeRequestRawTx this h = Reject e).
Proof.
  unfold BrandedToken.rejectStakeRequestRawTx.
  repeat match goal with |- context [if ?b then _ else _] => destruct b end; eauto.
Qed.

Lemma liftRestrictionRawTx_pure this a :
  (exists tx, BrandedToken.liftRestrictionRawTx this a = Resolve tx)
  \/ (exists e, BrandedToken.liftRestrictionRawTx this a = Reject e).
Proof.
  unfold BrandedToken.liftRestrictionRawTx.
  repeat match goal with |- context [if ?b then _ else _] => destruct b end; eauto.
Qed.

(** Whatever the arguments and whatever the world answers, a call of
    [requestStake], [acceptStakeRequest], [rejectStakeRequest],
    [liftRestriction] or [deploy] submits at most one transaction. *)
Theorem at_most_one_transaction_per_call
    (imp : Imports) (this : BrandedToken.t) (W : Type) (h : Handler W) (w : W) :
  (forall stakeAmount txOptions,
      length (submitted (events
        (run h (BrandedToken.requestStake this stakeAmount txOptions) w))) <= 1)%nat
  /\ (forall stakeRequestHash r s v txOptions,
      length (submitted (events
        (run h (BrandedToken.acceptStakeRequest this stakeRequestHash r s v txOptions)
           w))) <= 1)%nat
  /\ (forall stakeRequestHash txOptions,
      length (submitted (events
        (run h (BrandedToken.rejectStakeRequest this stakeRequestHash txOptions) w)))
      <= 1)%nat
  /\ (forall addresses txOptions,
      length (submitted (events
        (run h (BrandedToken.liftRestriction this addresses txOptions) w))) <= 1)%nat
  /\ (forall web3 valueToken symbol name decimals conversionRate
             conversionRateDecimals organization txOptions,
      length (submitted (events
        (run h (BrandedToken.deploy web3 valueToken symbol name decimals
                  conversionRate conversionRateDecimals organization txOptions) w)))
      <= 1)%nat.
Proof.
  repeat split; intros; apply AtMostOneSend_run.
  - unfold BrandedToken.requestStake.
    destruct (negb (Js.truthy txOptions)); [constructor |].
    destruct (negb (isAddress _)); [constructor |].
    apply AtMostOneSend_Call. intros m. apply AtMostOneSend_sendTransaction.
  - unfold BrandedToken.acceptStakeRequest.
    destruct (negb (Js.truthy txOptions)); [constructor |].
    destruct (negb (isAddress _)); [constructor |].
    apply AtMostOneSend_bind_pure; [apply acceptStakeRequestRawTx_pure |].
    intros tx. apply AtMostOneSend_sendTransaction.
  - unfold BrandedToken.rejectStakeRequest.
    destruct (negb (Js.truthy txOptions)); [constructor |].
    destruct (negb (isAddress _)); [constructor |].
    apply AtMostOneSend_bind_pure; [apply rejectStakeRequestRawTx_pure |].
    intros tx. apply AtMostOneSend_sendTransaction.
  - unfold BrandedToken.liftRestriction.
    destruct (negb (Js.truthy txOptions)); [constructor |].
    destruct (negb (isAddress _)); [constructor |].
    apply AtMostOneSend_bind_pure; [apply liftRestrictionRawTx_pure |].
    intros tx. apply AtMostOneSend_sendTransaction.
  - unfold BrandedToken.deploy.
    destruct (negb (Js.truthy txOptions)); [constructor |].
    destruct (negb (isAddress _)); [constructor |].
    apply AtMostOneSend_bind_pure.
    { destruct (BrandedToken.deployRawTx _ _ _ _ _ _ _ _); cbn; eauto. }
    intros tx. apply AtMostOneSend_Send. intros txReceipt.
    destruct txReceipt; try constructor; apply NoSend_ofCompletion.
Qed.

(** The four raw-transaction builders only build: run against any world
    they issue no event and leave the world as it was.  The two read-only
    methods issue exactly their one call, without any check of the argument,
    and hand its answer on; neither kind ever submits a transaction. *)
Theorem builders_and_reads_never_submit
    (this : BrandedToken.t) (W : Type) (h : Handler W) (w : W) :
  (forall stakeAmount mintAmount,
      world (run h (BrandedToken.requestStakeRawTx this stakeAmount mintAmount) w) = w
      /\ events (run h (BrandedToken.requestStakeRawTx this stakeAmount mintAmount) w) = [])
  /\ (forall stakeRequestHash r s v,
      world (run h (BrandedToken.acceptStakeRequestRawTx this stakeRequestHash r s v) w) = w
      /\ events (run h (BrandedToken.acceptStakeRequestRawTx this stakeRequestHash r s v) w)
         = [])
  /\ (forall stakeRequestHash,
      world (run h (BrandedToken.rejectStakeRequestRawTx this stakeRequestHash) w) = w
      /\ events (run h (BrandedToken.rejectStakeRequestRawTx this stakeRequestHash) w) = [])
  /\ (forall addresses,
      world (run h (BrandedToken.liftRestrictionRawTx this addresses) w) = w
      /\ events (run h (BrandedToken.liftRestrictionRawTx this addresses) w) = [])
  /\ (forall valueTokens,
      run h (BrandedToken.convertToBrandedTokens this valueTokens) w
      = answer h (ContractCall (BrandedToken.contract this) "convertToBrandedTokens"
                    [valueTokens]) w)
  /\ (forall address,
      run h (BrandedToken.isUnrestricted this address) w
      = answer h (ContractCall (BrandedToken.contract this) "isUnrestricted" [address]) w).
Proof.
  repeat split.
  - destruct (acceptStakeRequestRawTx_pure this stakeRequestHash r s v)
      as [[a ->] | [e ->]]; reflexivity.
  - destruct (acceptStakeRequestRawTx_pure this stakeRequestHash r s v)
      as [[a ->] | [e ->]]; reflexivity.
  - destruct (rejectStakeRequestRawTx_pure this stakeRequestHash)
      as [[a ->] | [e ->]]; reflexivity.
  - destruct (rejectStakeRequestRawTx_pure this stakeRequestHash)
      as [[a ->] | [e ->]]; reflexivity.
  - destruct (liftRestrictionRawTx_pure this addresses) as [[a ->] | [e ->]]; reflexivity.
  - destruct (liftRestrictionRawTx_pure this addresses) as [[a ->] | [e ->]]; reflexivity.
  - intros valueTokens. unfold BrandedToken.convertToBrandedTokens, answer. cbn [run].
    destruct (h _ w) as [[v | e] w1]; reflexivity.
  - intros address. unfold BrandedToken.isUnrestricted, answer. cbn [run].
    destruct (h _ w) as [[v | e] w1]; reflexivity.
Qed.

(** ** The binding of an instance *)

Lemma Targets_sendTransaction c m args o :
  Targets c (BrandedToken.sendTransaction (MethodTx c m args) o).
Proof. apply Targets_Await; [reflexivity | intros v; constructor]. Qed.

Lemma Targets_methods (imp : Imports) (this : BrandedToken.t) :
  (forall stakeAmount txOptions,
      Targets (BrandedToken.contract this)
        (BrandedToken.requestStake this stakeAmount txOptions))
  /\ (forall stakeRequestHash r s v txOptions,
      Targets (BrandedToken.contract this)
        (BrandedToken.acceptStakeRequest this stakeRequestHash r s v txOptions))
  /\ (forall stakeRequestHash txOptions,
      Targets (BrandedToken.contract this)
        (BrandedToken.rejectStakeRequest this stakeRequestHash txOptions))
  /\ (forall addresses txOptions,
      Targets (BrandedToken.contract this)
        (BrandedToken.liftRestriction this addresses txOptions))
  /\ (forall valueTokens,
      Targets (BrandedToken.contract this)
        (BrandedToken.convertToBrandedTokens this valueTokens))
  /\ (forall address,
      Targets (BrandedToken.contract this) (BrandedToken.isUnrestricted this address)).
Proof.
  repeat split; intros.
  - unfold BrandedToken.requestStake.
    destruct (negb (Js.truthy txOptions)); [constructor |].
    destruct (negb (isAddress _)); [constructor |].
    apply Targets_Await; [reflexivity |]. intros m. apply Targets_sendTransaction.
  - unfold BrandedToken.acceptStakeRequest, BrandedToken.acceptStakeRequestRawTx.
    repeat match goal with
           | |- context [if ?b then _ else _] => destruct b; [constructor |]
           end.
    apply Targets_sendTransaction.
  - unfold BrandedToken.rejectStakeRequest, BrandedToken.rejectStakeRequestRawTx.
    repeat match goal with
           | |- context [if ?b then _ else _] => destruct b; [constructor |]
           end.
    apply Targets_sendTransaction.
  - unfold BrandedToken.liftRestriction, BrandedToken.liftRestrictionRawTx.
    repeat match goal with
           | |- context [if ?b then _ else _] => destruct b; [constructor |]
           end.
    apply Targets_sendTransaction.
  - apply Targets_Await; [reflexivity | intros v; constructor].
  - apply Targets_Await; [reflexivity | intros v; constructor].
Qed.

(** Every event a method of a constructed instance issues, call or
    transaction, is addressed to the binding
    [Contracts.getBrandedToken(web3, address)] loaded by the constructor. *)
Theorem constructed_instance_targets_its_binding
    (imp : Imports) (web3 address : Js.value) (this : BrandedToken.t)
    (W : Type) (h : Handler W) (w : W) :
  BrandedToken.constructor web3 address = Return this ->
  let bound := fun (p : Async Js.value) =>
    Forall (fun ev => eventContract ev = getBrandedToken web3 address)
      (events (run h p w)) in
  (forall stakeAmount txOptions,
      bound (BrandedToken.requestStake this stakeAmount txOptions))
  /\ (forall stakeRequestHash r s v txOptions,
      bound (BrandedToken.acceptStakeRequest this stakeRequestHash r s v txOptions))
  /\ (forall stakeRequestHash txOptions,
      bound (BrandedToken.rejectStakeRequest this stakeRequestHash txOptions))
  /\ (forall addresses txOptions,
      bound (BrandedToken.liftRestriction this addresses txOptions))
  /\ (forall valueTokens, bound (BrandedToken.convertToBrandedTokens this valueTokens))
  /\ (forall address', bound (BrandedToken.isUnrestricted this address')).
Proof.
  intros Hctor bound. subst bound.
  pose proof (constructor_cases imp web3 address) as Hcases.
  rewrite Hctor in Hcases. destruct Hcases as (_ & _ & _ & <-).
  destruct (Targets_methods imp this) as (H1 & H2 & H3 & H4 & H5 & H6).
  repeat split; intros; apply Targets_run; auto.
Qed.

Lemma constructed_instance_targets_its_binding_witness :
  Forall (fun ev => eventContract ev
                    = getBrandedToken (Imports := Sample.imports) Sample.web3
                        (Js.VStr Sample.brandedToken))
    (events (run Sample.handler
               (BrandedToken.requestStake (imp := Sample.imports) Sample.bt
                  (Js.VNum 200) Sample.txOptions)
               Sample.approved)).
Proof.
  apply (constructed_instance_targets_its_binding Sample.imports Sample.web3
           (Js.VStr Sample.brandedToken) Sample.bt Ledger.World Sample.handler
           Sample.approved).
  reflexivity.
Defined.

(** ** Where a rejection comes from *)

Lemma TypedRejects_run {W A : Type} (h : Handler W) (p : Async A) :
  TypedRejects p ->
  forall w e,
    outcome (run h p w) = Rejected e ->
    isTypeError e = true
    \/ exists ev w0 w1, In ev (events (run h p w)) /\ h ev w0 = (Rejected e, w1).
Proof.
  induction 1 as [a | msg | ev k _ IH]; intros w e.
  - discriminate.
  - intros [= <-]. left. reflexivity.
  - cbn [run]. destruct (h ev w) as [[v | e'] w1] eqn:Hev.
    + specialize (IH v w1 e). destruct (run h (k v) w1) as [[o w2] evs].
      unfold outcome, events in *. cbn [fst snd] in *.
      intros Ho. destruct (IH Ho) as [Ht | (ev' & w0 & w1' & Hin & Hrej)]; [auto |].
      right. exists ev', w0, w1'. split; [right; exact Hin | exact Hrej].
    + intros [= <-]. right. exists ev, w, w1. split; [left; reflexivity | exact Hev].
Qed.

Lemma TypedRejects_ofCompletion {A : Type} (c : Completion A) :
  (forall e, c = Throw e -> isTypeError e = true) -> TypedRejects (ofCompletion c).
Proof.
  destruct c as [a | [msg | k]]; intros Hc; cbn [ofCompletion]; try constructor.
  specialize (Hc _ eq_refl). discriminate Hc.
Qed.

Lemma TypedRejects_bind {A B : Type} (p : Async A) (f : A -> Async B) :
  TypedRejects p -> (forall a, TypedRejects (f a)) -> TypedRejects (bind p f).
Proof.
  induction 1 as [a | msg | ev k _ IH]; intros Hf; cbn [bind].
  - apply Hf.
  - constructor.
  - constructor. intros v. apply IH. exact Hf.
Qed.

Lemma TypedRejects_sendTransaction tx o :
  TypedRejects (BrandedToken.sendTransaction tx o).
Proof. constructor. intros v. constructor. Qed.

Lemma deployRawTx_throws_TypeError (imp : Imports)
    web3 valueToken symbol name decimals conversionRate conversionRateDecimals
    organization e :
  BrandedToken.deployRawTx web3 valueToken symbol name decimals conversionRate
    conversionRateDecimals organization = Throw e ->
  isTypeError e = true.
Proof.
  pose proof (deployRawTx_cases imp web3 valueToken symbol name decimals
                conversionRate conversionRateDecimals organization) as Hcases.
  destruct (_ && _) in Hcases.
  - rewrite Hcases. discriminate.
  - destruct Hcases as [msg ->]. intros [= <-]. reflexivity.
Qed.

Lemma constructor_throws_TypeError (imp : Imports) web3 address e :
  BrandedToken.constructor web3 address = Throw e -> isTypeError e = true.
Proof.
  pose proof (constructor_cases imp web3 address) as Hcases.
  intros Hthrow. rewrite Hthrow in Hcases. exact Hcases.
Qed.

Lemma TypedRejects_methods (imp : Imports) (this : BrandedToken.t) :
  (forall stakeAmount txOptions,
      TypedRejects (BrandedToken.requestStake this stakeAmount txOptions))
  /\ (forall stakeRequestHash r s v txOptions,
      TypedRejects (BrandedToken.acceptStakeRequest this stakeRequestHash r s v txOptions))
  /\ (forall stakeRequestHash txOptions,
      TypedRejects (BrandedToken.rejectStakeRequest this stakeRequestHash txOptions))
  /\ (forall addresses txOptions,
      TypedRejects (BrandedToken.liftRestriction this addresses txOptions))
  /\ (forall web3 valueToken symbol name decimals conversionRate
             conversionRateDecimals organization txOptions,
      TypedRejects (BrandedToken.deploy web3 valueToken symbol name decimals
                      conversionRate conversionRateDecimals organization txOptions)).
Proof.
  repeat split; intros.
  - unfold BrandedToken.requestStake.
    repeat match goal with
           | |- context [if ?b then _ else _] => destruct b; [constructor |]
           end.
    constructor. intros m. apply TypedRejects_sendTransaction.
  - unfold BrandedToken.acceptStakeRequest, BrandedToken.acceptStakeRequestRawTx.
    repeat match goal with
           | |- context [if ?b then _ else _] => destruct b; [constructor |]
           end.
    apply TypedRejects_sendTransaction.
  - unfold BrandedToken.rejectStakeRequest, BrandedToken.rejectStakeRequestRawTx.
    repeat match goal with
           | |- context [if ?b then _ else _] => destruct b; [constructor |]
           end.
    apply TypedRejects_sendTransaction.
  - unfold BrandedToken.liftRestriction, BrandedToken.liftRestrictionRawTx.
    repeat match goal with
           | |- context [if ?b then _ else _] => destruct b; [constructor |]
           end.
    apply TypedRejects_sendTransaction.
  - unfold BrandedToken.deploy.
    destruct (negb (Js.truthy txOptions)); [constructor |].
    destruct (negb (isAddress _)); [constructor |].
    apply TypedRejects_bind.
    { apply TypedRejects_ofCompletion. intros e.
      apply deployRawTx_throws_TypeError. }
    intros tx. constructor. intros txReceipt.
    destruct txReceipt; try constructor;
      apply TypedRejects_ofCompletion; intros e; apply constructor_throws_TypeError.
Qed.

(** A rejection of [requestStake], [acceptStakeRequest],
    [rejectStakeRequest], [liftRestriction] or [deploy] is either a
    [TypeError] of the client or the rejection the world gave to one of the
    events of the run, handed on unchanged: the client turns no error of
    the world into another one and raises no other kind of its own. *)
Theorem rejections_are_TypeErrors_or_the_worlds
    (imp : Imports) (this : BrandedToken.t) (W : Type) (h : Handler W) (w : W)
    (e : JsError) :
  let fromWorld := fun (A : Type) (p : Async A) =>
    outcome (run h p w) = Rejected e ->
    isTypeError e = true
    \/ exists ev w0 w1, In ev (events (run h p w)) /\ h ev w0 = (Rejected e, w1) in
  (forall stakeAmount txOptions,
      fromWorld _ (BrandedToken.requestStake this stakeAmount txOptions))
  /\ (forall stakeRequestHash r s v txOptions,
      fromWorld _ (BrandedToken.acceptStakeRequest this stakeRequestHash r s v txOptions))
  /\ (forall stakeRequestHash txOptions,
      fromWorld _ (BrandedToken.rejectStakeRequest this stakeRequestHash txOptions))
  /\ (forall addresses txOptions,
      fromWorld _ (BrandedToken.liftRestriction this addresses txOptions))
  /\ (forall web3 valueToken symbol name decimals conversionRate
             conversionRateDecimals organization txOptions,
      fromWorld _ (BrandedToken.deploy web3 valueToken symbol name decimals
                     conversionRate conversionRateDecimals organization txOptions)).
Proof.
  intros fromWorld. subst fromWorld.
  destruct (TypedRejects_methods imp this) as (H1 & H2 & H3 & H4 & H5).
  repeat split; intros; cbv beta; apply TypedRejects_run; auto.
Qed.

(** ** The fields of an instance *)

(** The methods read nothing of an instance but its contract binding: two
    instances with the same binding give the same promises, whatever their
    [web3] and [address] fields are. *)
Theorem methods_depend_only_on_the_binding
    (imp : Imports) (a b : BrandedToken.t) :
  BrandedToken.contract a = BrandedToken.contract b ->
  (forall stakeAmount txOptions,
      BrandedToken.requestStake a stakeAmount txOptions
      = BrandedToken.requestStake b stakeAmount txOptions)
  /\ (forall stakeRequestHash r s v txOptions,
      BrandedToken.acceptStakeRequest a stakeRequestHash r s v txOptions
      = BrandedToken.acceptStakeRequest b stakeRequestHash r s v txOptions)
  /\ (forall stakeRequestHash txOptions,
      BrandedToken.rejectStakeRequest a stakeRequestHash txOptions
      = BrandedToken.rejectStakeRequest b stakeRequestHash txOptions)
  /\ (forall addresses txOptions,
      BrandedToken.liftRestriction a addresses txOptions
      = BrandedToken.liftRestriction b addresses txOptions)
  /\ (forall valueTokens,
      BrandedToken.convertToBrandedTokens a valueTokens
      = BrandedToken.convertToBrandedTokens b valueTokens)
  /\ (forall address,
      BrandedToken.isUnrestricted a address = BrandedToken.isUnrestricted b address).
Proof.
  destruct a as [wa aa ca], b as [wb ab cb]. cbn [BrandedToken.contract].
  intros ->. repeat split.
Qed.

Lemma methods_depend_only_on_the_binding_witness :
  BrandedToken.requestStake (imp := Sample.imports) Sample.bt (Js.VNum 200) Sample.txOptions
  = BrandedToken.requestStake (imp := Sample.imports)
      (BrandedToken.mk Js.VUndefined Js.VNull (BrandedToken.contract Sample.bt))
      (Js.VNum 200) Sample.txOptions.
Proof.
  apply (methods_depend_only_on_the_binding Sample.imports Sample.bt
           (BrandedToken.mk Js.VUndefined Js.VNull (BrandedToken.contract Sample.bt))).
  reflexivity.
Defined.
